(** * DroneForce backend: flight-log parser, flight validator, report hash

  A shallow embedding of [src/validator/parser.py],
  [src/validator/validator.py] and the report-hash block of [src/main.py],
  with the properties of the specification proved about it.

  Numbers.  Python's [int] and [float] values are modelled as real numbers
  ([R]): comparisons are the order of the reals, [/] is true division and
  raises [ZeroDivisionError] on a zero divisor, and a number is falsy
  exactly when it is zero.  Rounding, NaN and the infinities of binary64
  are outside this model.

  Binary64.  Where a property turns on NaN, on rounding or on the value of
  [math.cos] at a pole, the validator is embedded a second time, in module
  [F64], over the binary64 floats of the kernel, with the cosine of the C
  library as a parameter.

  Exceptions.  Code that can raise returns a [result]; the exception is a
  value of [exn]. *)

From Stdlib Require Import Reals Lra List String Ascii ZArith Bool Lia.
From Stdlib Require Import Strings.Byte DecimalString Permutation.
From Stdlib Require Import Floats.
Import ListNotations.

Set Implicit Arguments.

(* ================================================================== *)
(** * Python base: exceptions, numbers, built-ins                      *)
(* ================================================================== *)

Module Py.

Inductive exn : Type :=
| ValueError (msg : string)
| FileNotFoundError (msg : string)
| ZeroDivisionError (msg : string).

Inductive result (A : Type) : Type :=
| Ok (a : A)
| Raise (e : exn).
Arguments Ok {A} a.
Arguments Raise {A} e.

Definition bind {A B : Type} (c : result A) (k : A -> result B) : result B :=
  match c with
  | Ok a => k a
  | Raise e => Raise e
  end.

Definition is_ok {A : Type} (c : result A) : bool :=
  match c with Ok _ => true | Raise _ => false end.

Open Scope R_scope.

(** Comparisons of numbers, as booleans. *)
Definition lt (x y : R) : bool := if Rlt_dec x y then true else false.
Definition gt (x y : R) : bool := if Rgt_dec x y then true else false.
Definition le (x y : R) : bool := if Rle_dec x y then true else false.
Definition ge (x y : R) : bool := if Rge_dec x y then true else false.

(** [bool(x)] for a number: zero is falsy. *)
Definition truthy (x : R) : bool := if Req_dec_T x 0 then false else true.

(** [bool(x)] for a value that is a number or [None]. *)
Definition truthy_opt (x : option R) : bool :=
  match x with
  | None => false
  | Some v => truthy v
  end.

(** [x / y]. *)
Definition truediv (x y : R) : result R :=
  if Req_dec_T y 0 then Raise (ZeroDivisionError "division by zero")
  else Ok (x / y).

(** [min(l)]: the first item, replaced by each later item that is
    strictly smaller. *)
Definition min (l : list R) : result R :=
  match l with
  | [] => Raise (ValueError "min() arg is an empty sequence")
  | x :: xs => Ok (fold_left (fun m item => if lt item m then item else m) xs x)
  end.

(** [max(l)]: the first item, replaced by each later item that is
    strictly greater. *)
Definition max (l : list R) : result R :=
  match l with
  | [] => Raise (ValueError "max() arg is an empty sequence")
  | x :: xs => Ok (fold_left (fun m item => if gt item m then item else m) xs x)
  end.

(** [sum(l)]: left to right, from 0. *)
Definition sum (l : list R) : R := fold_left Rplus l 0.

(** [len(l)] as a number. *)
Definition len {A : Type} (l : list A) : R := INR (List.length l).

(** [bool(l)] for a list: empty is falsy. *)
Definition nonempty {A : Type} (l : list A) : bool :=
  match l with [] => false | _ :: _ => true end.

(** [s.endswith(suffix)]. *)
Definition endswith (s suffix : string) : bool :=
  let n := String.length s in
  let k := String.length suffix in
  (k <=? n)%nat && String.eqb (substring (n - k) k s) suffix.

(** [str(b)] for a bool. *)
Definition str_bool (b : bool) : string :=
  if b then "True"%string else "False"%string.

End Py.

Import Py.

Declare Scope py_scope.
Delimit Scope py_scope with py.
Notation "x <- c ;; k" := (Py.bind c (fun x => k))
(at level 61, c at next level, right associativity) : py_scope.
Open Scope py_scope.
Open Scope R_scope.

(* ================================================================== *)
(** * src/validator/parser.py                                           *)
(* ================================================================== *)

(** One entry of ['gps_points']. *)
Module GpsPoint.
Record t : Type := Build { lat : R; lng : R; alt : R; timestamp : R }.
End GpsPoint.

(** The dict that [LogParser.parse] returns. *)
Module FlightData.
Record t : Type := Build {
  gps_points : list GpsPoint.t;
  start_time : option R;
  end_time : option R;
  duration : R;
  max_altitude : R;
  avg_altitude : R;
  operator_pubkey : option R
}.
End FlightData.

Module DFReader.

(** A decoded log message: what [recv_match] hands to the parser.
    [Other] stands for every message type other than GPS and PARM. *)
Inductive msg : Type :=
| GPS (Status Lat Lng Alt _timestamp : R)
| PARM (Name : string) (Value : R)
| Other (msg_type : string).

Definition get_type (m : msg) : string :=
  match m with
  | GPS _ _ _ _ _ => "GPS"
  | PARM _ _ => "PARM"
  | Other t => t
  end.

(** The reader: the messages that [recv_match] has yet to return, in the
    order of the recording; it returns [None] once the list is empty. *)
Definition t : Type := list msg.

End DFReader.

Module LogParser.

Import DFReader.

(** The files of the machine: the decoded messages of the recording
    stored at a path, [None] where there is no file. *)
Definition filesystem : Type := string -> option DFReader.t.

Definition exists_ (fs : filesystem) (path : string) : bool :=
  match fs path with Some _ => true | None => false end.

Record t : Type := Build { log_path : string }.

(** [LogParser.__init__]. *)
Definition __init__ (fs : filesystem) (log_path : string) : result t :=
  if negb (exists_ fs log_path) then
    Raise (FileNotFoundError ("Log file not found at " ++ log_path))
  else if negb (endswith log_path ".bin") then
    Raise (ValueError ("Unsupported log format. Expected .bin file, got " ++ log_path))
  else Ok (Build log_path).

(** The local variables of [parse] that the message loop updates. *)
Record locals : Type := Locals {
  gps_points : list GpsPoint.t;
  altitudes : list R;
  timestamps : list R;
  operator_pubkey : option R
}.

Definition locals0 : locals := Locals [] [] [] None.

(** The [while True] loop of [parse]: one iteration per message, until
    [recv_match] returns [None]. *)
Fixpoint process_messages (log : DFReader.t) (st : locals) : result locals :=
  match log with
  | [] => Ok st
  | m :: log' =>
      match m with
      | GPS Status Lat Lng Alt _timestamp =>
          if ge Status 3 then
            lat <- truediv Lat 1e7 ;;
            lng <- truediv Lng 1e7 ;;
            alt <- truediv Alt 100 ;;
            let timestamp := _timestamp in
            process_messages log'
              (Locals (gps_points st ++ [GpsPoint.Build lat lng alt timestamp])
                      (altitudes st ++ [alt])
                      (timestamps st ++ [timestamp])
                      (operator_pubkey st))
          else process_messages log' st
      | PARM Name Value =>
          if String.eqb Name "OPERATOR_PUBKEY" then
            process_messages log'
              (Locals (gps_points st) (altitudes st) (timestamps st) (Some Value))
          else process_messages log' st
      | Other _ => process_messages log' st
      end
  end.

(** The derived data of [parse], computed once the log is exhausted. *)
Definition summarize (st : locals) : result FlightData.t :=
  if negb (nonempty (gps_points st)) then
    Raise (ValueError "No valid GPS points found in log file")
  else
    start_time <- (if nonempty (timestamps st)
                   then (x <- Py.min (timestamps st) ;; Ok (Some x))
                   else Ok None) ;;
    end_time <- (if nonempty (timestamps st)
                 then (x <- Py.max (timestamps st) ;; Ok (Some x))
                 else Ok None) ;;
    let duration :=
      match start_time, end_time with
      | Some s, Some e => if truthy s && truthy e then e - s else 0
      | _, _ => 0
      end in
    max_altitude <- (if nonempty (altitudes st)
                     then Py.max (altitudes st) else Ok 0) ;;
    avg_altitude <- (if nonempty (altitudes st)
                     then truediv (Py.sum (altitudes st)) (len (altitudes st))
                     else Ok 0) ;;
    Ok (FlightData.Build (gps_points st) start_time end_time duration
          max_altitude avg_altitude (operator_pubkey st)).

(** [LogParser.parse], on the messages that [DFReader_binary] decodes
    from the file. *)
Definition parse_messages (log : DFReader.t) : result FlightData.t :=
  st <- process_messages log locals0 ;;
  summarize st.

(** [LogParser.parse]. *)
Definition parse (fs : filesystem) (self : t) : result FlightData.t :=
  match fs (log_path self) with
  | None => Raise (FileNotFoundError (log_path self))
  | Some log => parse_messages log
  end.

(** [LogParser(log_path).parse()], as the caller in [main.py] runs it. *)
Definition run (fs : filesystem) (log_path : string) : result FlightData.t :=
  parser <- __init__ fs log_path ;;
  parse fs parser.

End LogParser.

(* ================================================================== *)
(** * src/validator/validator.py                                        *)
(* ================================================================== *)

(** The [location] dict of a task: [{'lat': ..., 'lng': ...}]. *)
Module Location.
Record t : Type := Build { lat : R; lng : R }.
End Location.

(** The [bounds] dict of a validator. *)
Module Bounds.
Record t : Type := Build { min_lat : R; max_lat : R; min_lng : R; max_lng : R }.
End Bounds.

(** The dict that [get_validation_details] returns. *)
Module Details.
Record t : Type := Build {
  duration_valid : bool;
  altitude_valid : bool;
  geofence_valid : bool;
  overall_valid : bool
}.
End Details.

Module FlightValidator.

Record t : Type := Build {
  flight_data : FlightData.t;
  center_location : Location.t;
  area_size : R;
  max_altitude : R;
  min_duration : R;
  geofencing_enabled : bool;
  bounds : Bounds.t
}.

(** [math.radians]. *)
Definition radians (x : R) : R := x * (PI / 180).

(** [FlightValidator.__init__]. *)
Definition __init__ (flight_data : FlightData.t) (location : Location.t)
    (area_size max_altitude min_duration : R) (geofencing_enabled : bool)
    : result t :=
  half <- truediv area_size 2 ;;
  lat_offset <- truediv half 111000 ;;
  half' <- truediv area_size 2 ;;
  lng_offset <- truediv half' (111000 * cos (radians (Location.lat location))) ;;
  Ok (Build flight_data location area_size max_altitude min_duration
        geofencing_enabled
        (Bounds.Build (Location.lat location - lat_offset)
                      (Location.lat location + lat_offset)
                      (Location.lng location - lng_offset)
                      (Location.lng location + lng_offset))).

(** [_validate_duration]. *)
Definition _validate_duration (self : t) : bool :=
  ge (FlightData.duration (flight_data self)) (min_duration self).

(** [_validate_altitude]. *)
Definition _validate_altitude (self : t) : bool :=
  le (FlightData.max_altitude (flight_data self)) (max_altitude self).

(** The test of one point in [_validate_geofence]: true when the point is
    outside the bounding box. *)
Definition out_of_bounds (b : Bounds.t) (point : GpsPoint.t) : bool :=
  lt (GpsPoint.lat point) (Bounds.min_lat b)
  || gt (GpsPoint.lat point) (Bounds.max_lat b)
  || lt (GpsPoint.lng point) (Bounds.min_lng b)
  || gt (GpsPoint.lng point) (Bounds.max_lng b).

(** The [for] loop of [_validate_geofence]: it returns [False] at the first
    point outside the box and looks at no later point. *)
Fixpoint geofence_loop (b : Bounds.t) (points : list GpsPoint.t) : bool :=
  match points with
  | [] => true
  | point :: rest =>
      if out_of_bounds b point then false else geofence_loop b rest
  end.

(** [_validate_geofence]. *)
Definition _validate_geofence (self : t) : bool :=
  geofence_loop (bounds self) (FlightData.gps_points (flight_data self)).

(** [validate]. *)
Definition validate (self : t) : bool :=
  let duration_valid := _validate_duration self in
  let altitude_valid := _validate_altitude self in
  let geofence_valid :=
    if geofencing_enabled self then _validate_geofence self else true in
  duration_valid && altitude_valid && geofence_valid.

(** [get_validation_details]. *)
Definition get_validation_details (self : t) : Details.t :=
  let duration_valid := _validate_duration self in
  let altitude_valid := _validate_altitude self in
  let geofence_valid :=
    if geofencing_enabled self then _validate_geofence self else true in
  Details.Build duration_valid altitude_valid geofence_valid
    (duration_valid && altitude_valid && geofence_valid).

End FlightValidator.

(* ================================================================== *)
(** * src/validator/validator.py over binary64                          *)
(* ================================================================== *)

(** The validator once more, with every number a binary64 float: the
    comparisons are those of IEEE 754 (false when an operand is NaN), the
    arithmetic rounds to nearest, and [math.cos] is the wrapper of the C
    library's [cos], which is the parameter [libm_cos]. *)
Module F64.

Definition lt (x y : float) : bool := (x <? y)%float.
Definition gt (x y : float) : bool := (y <? x)%float.
Definition le (x y : float) : bool := (x <=? y)%float.
Definition ge (x y : float) : bool := (y <=? x)%float.

(** [x / y] on floats. *)
Definition truediv (x y : float) : result float :=
  if (y =? 0)%float then Raise (ZeroDivisionError "float division by zero")
  else Ok (x / y)%float.

(** [math.pi]. *)
Definition pi : float := 0x1.921fb54442d18p+1%float.

(** [math.radians]: the argument times the constant [pi / 180]. *)
Definition radians (x : float) : float := (x * (pi / 180))%float.

(** [math.cos]: the result of the C function, turned into [ValueError]
    when it is NaN for an argument that is not, or infinite for a finite
    argument. *)
Definition cos (libm_cos : float -> float) (x : float) : result float :=
  let r := libm_cos x in
  if is_nan r && negb (is_nan x) then Raise (ValueError "math domain error")
  else if is_infinity r && is_finite x then Raise (ValueError "math domain error")
  else Ok r.

Module GpsPoint.
Record t : Type := Build { lat : float; lng : float; alt : float; timestamp : float }.
End GpsPoint.

Module FlightData.
Record t : Type := Build {
  gps_points : list GpsPoint.t;
  start_time : option float;
  end_time : option float;
  duration : float;
  max_altitude : float;
  avg_altitude : float;
  operator_pubkey : option float
}.
End FlightData.

Module Location.
Record t : Type := Build { lat : float; lng : float }.
End Location.

Module Bounds.
Record t : Type := Build {
  min_lat : float; max_lat : float; min_lng : float; max_lng : float
}.
End Bounds.

Module FlightValidator.

Record t : Type := Build {
  flight_data : FlightData.t;
  center_location : Location.t;
  area_size : float;
  max_altitude : float;
  min_duration : float;
  geofencing_enabled : bool;
  bounds : Bounds.t
}.

(** [FlightValidator.__init__]. *)
Definition __init__ (libm_cos : float -> float) (flight_data : FlightData.t)
    (location : Location.t) (area_size max_altitude min_duration : float)
    (geofencing_enabled : bool) : result t :=
  half <- truediv area_size 2 ;;
  lat_offset <- truediv half 111000 ;;
  half' <- truediv area_size 2 ;;
  c <- cos libm_cos (radians (Location.lat location)) ;;
  lng_offset <- truediv half' (111000 * c)%float ;;
  Ok (Build flight_data location area_size max_altitude min_duration
        geofencing_enabled
        (Bounds.Build (Location.lat location - lat_offset)%float
                      (Location.lat location + lat_offset)%float
                      (Location.lng location - lng_offset)%float
                      (Location.lng location + lng_offset)%float)).

(** [_validate_duration]. *)
Definition _validate_duration (self : t) : bool :=
  ge (FlightData.duration (flight_data self)) (min_duration self).

(** [_validate_altitude]. *)
Definition _validate_altitude (self : t) : bool :=
  le (FlightData.max_altitude (flight_data self)) (max_altitude self).

(** The test of one point in [_validate_geofence]. *)
Definition out_of_bounds (b : Bounds.t) (point : GpsPoint.t) : bool :=
  lt (GpsPoint.lat point) (Bounds.min_lat b)
  || gt (GpsPoint.lat point) (Bounds.max_lat b)
  || lt (GpsPoint.lng point) (Bounds.min_lng b)
  || gt (GpsPoint.lng point) (Bounds.max_lng b).

(** The [for] loop of [_validate_geofence], with its early return. *)
Fixpoint geofence_loop (b : Bounds.t) (points : list GpsPoint.t) : bool :=
  match points with
  | [] => true
  | point :: rest =>
      if out_of_bounds b point then false else geofence_loop b rest
  end.

(** [_validate_geofence]. *)
Definition _validate_geofence (self : t) : bool :=
  geofence_loop (bounds self) (FlightData.gps_points (flight_data self)).

(** [validate]. *)
Definition validate (self : t) : bool :=
  let duration_valid := _validate_duration self in
  let altitude_valid := _validate_altitude self in
  let geofence_valid :=
    if geofencing_enabled self then _validate_geofence self else true in
  duration_valid && altitude_valid && geofence_valid.

(** [get_validation_details]. *)
Definition get_validation_details (self : t) : Details.t :=
  let duration_valid := _validate_duration self in
  let altitude_valid := _validate_altitude self in
  let geofence_valid :=
    if geofencing_enabled self then _validate_geofence self else true in
  Details.Build duration_valid altitude_valid geofence_valid
    (duration_valid && altitude_valid && geofence_valid).

End FlightValidator.

End F64.

(* ================================================================== *)
(** * hashlib.sha256 (FIPS 180-4)                                       *)
(* ================================================================== *)

(** Words are 32-bit unsigned integers, held in [Z] and reduced modulo
    [2^32] after each addition and left shift; bytes are [Z] in [0, 256). *)
Module SHA256.

Open Scope Z_scope.

Definition wrap (x : Z) : Z := x mod 2 ^ 32.

Definition add32 (x y : Z) : Z := wrap (x + y).

Definition rotr (n x : Z) : Z :=
  Z.lor (Z.shiftr x n) (wrap (Z.shiftl x (32 - n))).

Definition shr (n x : Z) : Z := Z.shiftr x n.

Definition not32 (x : Z) : Z := Z.lxor x 0xffffffff.

Definition Ch (x y z : Z) : Z := Z.lxor (Z.land x y) (Z.land (not32 x) z).

Definition Maj (x y z : Z) : Z :=
  Z.lxor (Z.lxor (Z.land x y) (Z.land x z)) (Z.land y z).

Definition Sigma0 (x : Z) : Z := Z.lxor (Z.lxor (rotr 2 x) (rotr 13 x)) (rotr 22 x).
Definition Sigma1 (x : Z) : Z := Z.lxor (Z.lxor (rotr 6 x) (rotr 11 x)) (rotr 25 x).
Definition sigma0 (x : Z) : Z := Z.lxor (Z.lxor (rotr 7 x) (rotr 18 x)) (shr 3 x).
Definition sigma1 (x : Z) : Z := Z.lxor (Z.lxor (rotr 17 x) (rotr 19 x)) (shr 10 x).

(** Trial division, for the small primes the constants come from. *)
Definition is_prime (p : Z) : bool :=
  (2 <=? p) && forallb (fun d => negb (p mod d =? 0))
                       (map Z.of_nat (seq 2 (Z.to_nat p - 2))).

(** The first [n] primes below 312. *)
Definition first_primes (n : nat) : list Z :=
  firstn n (filter is_prime (map Z.of_nat (seq 2 310))).

(** The integer cube root, one bit at a time from bit [n - 1] down. *)
Fixpoint cube_root_bits (n : nat) (x r : Z) : Z :=
  match n with
  | O => r
  | S n' =>
      let c := r + 2 ^ Z.of_nat n' in
      if c * c * c <=? x then cube_root_bits n' x c else cube_root_bits n' x r
  end.

Definition cube_root (x : Z) : Z := cube_root_bits 40 x 0.

(** The round constants: the first 32 bits of the fractional parts of the
    cube roots of the first 64 primes. *)
Definition K : list Z :=
  Eval vm_compute in map (fun p => wrap (cube_root (p * 2 ^ 96))) (first_primes 64).

(** The initial hash value: the first 32 bits of the fractional parts of
    the square roots of the first 8 primes. *)
Definition H0 : list Z :=
  Eval vm_compute in map (fun p => wrap (Z.sqrt (p * 2 ^ 64))) (first_primes 8).

(** The big-endian bytes of [x], [n] of them. *)
Fixpoint be_bytes (n : nat) (x : Z) : list Z :=
  match n with
  | O => []
  | S n' => (Z.shiftr x (8 * Z.of_nat n')) mod 256 :: be_bytes n' x
  end.

(** The big-endian word of a list of bytes. *)
Definition be_word (bs : list Z) : Z :=
  fold_left (fun acc b => acc * 256 + b) bs 0.

(** Padding: a 1 bit, zeros up to 56 modulo 64 bytes, and the length of the
    message in bits as a 64-bit big-endian integer. *)
Definition pad (message : list Z) : list Z :=
  let l := Z.of_nat (List.length message) in
  message ++ [0x80] ++ repeat 0 (Z.to_nat ((55 - l) mod 64))
          ++ be_bytes 8 ((8 * l) mod 2 ^ 64).

(** The list cut into pieces of [size] items; [fuel] bounds the number of
    pieces and the length of the list is always enough. *)
Fixpoint chunks (size : nat) (fuel : nat) (l : list Z) : list (list Z) :=
  match fuel with
  | O => []
  | S fuel' =>
      match l with
      | [] => []
      | _ :: _ => firstn size l :: chunks size fuel' (skipn size l)
      end
  end.

Definition words_of_block (block : list Z) : list Z :=
  map be_word (chunks 4 16 block).

(** The message schedule: [n] more words after those of [w]. *)
Fixpoint schedule (n : nat) (w : list Z) : list Z :=
  match n with
  | O => w
  | S n' =>
      let t := List.length w in
      let at_ (k : nat) := nth (t - k) w 0 in
      schedule n'
        (w ++ [add32 (add32 (add32 (sigma1 (at_ 2%nat)) (at_ 7%nat))
                            (sigma0 (at_ 15%nat)))
                     (at_ 16%nat)])
  end.

(** The working variables [a] to [h]. *)
Record vars : Type := Vars { va : Z; vb : Z; vc : Z; vd : Z; ve : Z; vf : Z; vg : Z; vh : Z }.

Definition round (v : vars) (kw : Z * Z) : vars :=
  let '(k, w) := kw in
  let T1 := add32 (add32 (add32 (add32 (vh v) (Sigma1 (ve v)))
                                (Ch (ve v) (vf v) (vg v))) k) w in
  let T2 := add32 (Sigma0 (va v)) (Maj (va v) (vb v) (vc v)) in
  Vars (add32 T1 T2) (va v) (vb v) (vc v) (add32 (vd v) T1) (ve v) (vf v) (vg v).

Definition vars_of_list (h : list Z) : vars :=
  Vars (nth 0 h 0) (nth 1 h 0) (nth 2 h 0) (nth 3 h 0)
       (nth 4 h 0) (nth 5 h 0) (nth 6 h 0) (nth 7 h 0).

Definition list_of_vars (v : vars) : list Z :=
  [va v; vb v; vc v; vd v; ve v; vf v; vg v; vh v].

(** One block folded into the hash value. *)
Definition compress (h : list Z) (block : list Z) : list Z :=
  let w := schedule 48 (words_of_block block) in
  let v := fold_left round (combine K w) (vars_of_list h) in
  map (fun p => add32 (fst p) (snd p)) (combine h (list_of_vars v)).

(** The digest of a message: 32 bytes. *)
Definition digest (message : list Z) : list Z :=
  let padded := pad message in
  let h := fold_left compress (chunks 64 (List.length padded) padded) H0 in
  flat_map (be_bytes 4) h.

Definition hex_digit (d : Z) : ascii :=
  if d <? 10 then ascii_of_N (Z.to_N (48 + d))
  else ascii_of_N (Z.to_N (87 + d)).

(** Two lowercase hexadecimal digits per byte. *)
Fixpoint hex (bs : list Z) : string :=
  match bs with
  | [] => EmptyString
  | b :: rest => String (hex_digit (b / 16)) (String (hex_digit (b mod 16)) (hex rest))
  end.

(** [hashlib.sha256(data).hexdigest()]. *)
Definition sha256_hexdigest (data : list byte) : string :=
  hex (digest (map (fun b => Z.of_N (Byte.to_N b)) data)).

End SHA256.

(* ================================================================== *)
(** * json.dumps and str.encode                                         *)
(* ================================================================== *)

(** Strings are sequences of code points below 256, one [ascii] each. *)
Module Json.

Local Set Warnings "-register-all".

(** The values that [json.dumps] serializes, dict keys being strings. *)
Inductive pyval : Type :=
| PyNone
| PyBool (b : bool)
| PyInt (z : Z)
| PyFloat (x : R)
| PyStr (s : string)
| PyList (items : list pyval)
| PyDict (items : list (string * pyval)).

Definition dquote : string := String "034"%char EmptyString.
Definition backslash : string := String "092"%char EmptyString.

Definition hex_digit (d : N) : ascii :=
  if (d <? 10)%N then ascii_of_N (48 + d) else ascii_of_N (87 + d).

(** ['{0:04x}'.format(n)] for [n] below 65536. *)
Definition hex4 (n : N) : string :=
  String (hex_digit (n / 4096 mod 16))
    (String (hex_digit (n / 256 mod 16))
      (String (hex_digit (n / 16 mod 16))
        (String (hex_digit (n mod 16)) EmptyString))).

(** The replacement of one character in [py_encode_basestring_ascii]. *)
Definition escape_char (c : ascii) : string :=
  let n := N_of_ascii c in
  if (n =? 34)%N then backslash ++ dquote
  else if (n =? 92)%N then backslash ++ backslash
  else if (n =? 10)%N then backslash ++ "n"
  else if (n =? 13)%N then backslash ++ "r"
  else if (n =? 9)%N then backslash ++ "t"
  else if (n =? 12)%N then backslash ++ "f"
  else if (n =? 8)%N then backslash ++ "b"
  else if ((32 <=? n) && (n <=? 126))%N then String c EmptyString
  else backslash ++ "u" ++ hex4 n.

Fixpoint escape (s : string) : string :=
  match s with
  | EmptyString => EmptyString
  | String c rest => escape_char c ++ escape rest
  end.

(** [py_encode_basestring_ascii]. *)
Definition encode_basestring_ascii (s : string) : string :=
  dquote ++ escape s ++ dquote.

(** [int.__repr__]. *)
Definition int_repr (z : Z) : string := NilZero.string_of_int (Z.to_int z).

(** [sep.join(parts)]. *)
Fixpoint join (sep : string) (parts : list string) : string :=
  match parts with
  | [] => EmptyString
  | [p] => p
  | p :: rest => p ++ sep ++ join sep rest
  end.

Section Dumps.

(** [float.__repr__], the text [json.dumps] writes for a float: the
    shortest decimal that reads back as the same binary64 value.  It is a
    function of the value alone and is left open here. *)
Variable float_repr : R -> string.

(** [json.dumps(o)] with its default arguments: items in the order of the
    dict, separators [", "] and [": "]. *)
Fixpoint dumps (o : pyval) : string :=
  match o with
  | PyNone => "null"
  | PyBool true => "true"
  | PyBool false => "false"
  | PyInt z => int_repr z
  | PyFloat x => float_repr x
  | PyStr s => encode_basestring_ascii s
  | PyList items => "[" ++ join ", " (map dumps items) ++ "]"
  | PyDict items =>
      "{" ++ join ", "
               (map (fun kv => encode_basestring_ascii (fst kv) ++ ": " ++ dumps (snd kv))
                    items)
          ++ "}"
  end%string.

End Dumps.

(** The UTF-8 bytes of one code point below 256. *)
Definition encode_char (c : ascii) : list byte :=
  let n := N_of_ascii c in
  if (n <? 128)%N then [byte_of_ascii c]
  else [byte_of_ascii (ascii_of_N (192 + n / 64));
        byte_of_ascii (ascii_of_N (128 + n mod 64))].

(** [s.encode()]. *)
Fixpoint encode (s : string) : list byte :=
  match s with
  | EmptyString => []
  | String c rest => encode_char c ++ encode rest
  end.

End Json.

(* ================================================================== *)
(** * src/main.py: the verification report hash                         *)
(* ================================================================== *)

Module Main.

Import Json.

(** The fields of the task document that the report hash reads, as
    Firestore returns them. *)
Record task_spec : Type := TaskSpec {
  location : pyval;
  area_size : pyval;
  altitude : pyval;
  duration : pyval;
  geofencing_enabled : pyval
}.

Section Report.

Variable float_repr : R -> string.

(** [verification_params]: the dict literal of [process_drone_log],
    serialized. *)
Definition verification_params (spec : task_spec) : string :=
  dumps float_repr
    (PyDict [ ("location"%string, location spec);
              ("area_size"%string, area_size spec);
              ("altitude"%string, altitude spec);
              ("duration"%string, duration spec);
              ("geofencing_enabled"%string, geofencing_enabled spec) ]).

(** [verification_data]. *)
Definition verification_data (log_content : list byte) (spec : task_spec)
    (verification_result : bool) : list byte :=
  (log_content ++ encode (verification_params spec)
               ++ encode (str_bool verification_result))%list.

(** [verification_report_hash]. *)
Definition verification_report_hash (log_content : list byte)
    (spec : task_spec) (verification_result : bool) : string :=
  SHA256.sha256_hexdigest (verification_data log_content spec verification_result).

End Report.

End Main.

(* ================================================================== *)
(** * src/main.py: which upload is processed, for which task, from
      which local file                                                  *)
(* ================================================================== *)

(** The [str] methods that [process_drone_log] calls. *)
Module Str.

(** [s.startswith(p)]. *)
Definition startswith (s p : string) : bool := String.prefix p s.

(** [s.split(sep)] for a separator of one character: the pieces between
    the separators, one more than there are separators. *)
Fixpoint split (sep : ascii) (s : string) : list string :=
  match s with
  | EmptyString => [EmptyString]
  | String c rest =>
      if Ascii.eqb c sep then EmptyString :: split sep rest
      else match split sep rest with
           | [] => [String c EmptyString]
           | piece :: pieces => String c piece :: pieces
           end
  end.

(** The scan of [s.replace(old, new)] for a non-empty [old]: [skip] counts
    the characters of the occurrence being replaced that are still to be
    passed over. *)
Fixpoint replace_from (old new : string) (skip : nat) (s : string) : string :=
  match s with
  | EmptyString => EmptyString
  | String c rest =>
      match skip with
      | S k => replace_from old new k rest
      | O =>
          if String.prefix old s
          then (new ++ replace_from old new (String.length old - 1) rest)%string
          else String c (replace_from old new 0 rest)
      end
  end.

(** [s.replace(old, new)] for a non-empty [old]: every occurrence, from
    the left, occurrences not overlapping. *)
Definition replace (s old new : string) : string := replace_from old new 0 s.

End Str.

(** [tempfile.NamedTemporaryFile(delete=False).name]. *)
Module Tempfile.

(** The characters a random name is drawn from. *)
Definition characters : string := "abcdefghijklmnopqrstuvwxyz0123456789_".

(** [os.path.join(dir, name)] for a relative [name]. *)
Definition join (dir name : string) : string :=
  if String.eqb dir "" || endswith dir "/" then (dir ++ name)%string
  else (dir ++ "/" ++ name)%string.

(** The name of the file for the random part [rand], in the temporary
    directory [dir]: prefix [tmp], the random part, no suffix. *)
Definition name (dir rand : string) : string :=
  join dir ("tmp" ++ rand ++ "")%string.

(** What the library draws for the random part: eight of [characters]. *)
Definition is_random_part (rand : string) : Prop :=
  String.length rand = 8%nat
  /\ forall c, In c (list_ascii_of_string rand) ->
               In c (list_ascii_of_string characters).

End Tempfile.

Module ProcessDroneLog.

(** Where the first lines of [process_drone_log] lead for the uploaded
    file [file_path]: the file is ignored, or it is processed for a task
    id, or the subscript [[1]] raises [IndexError]. *)
Inductive routed : Type :=
| Ignored
| ForTask (task_id : string)
| RaiseIndexError.

(** Lines 40 to 45 of [process_drone_log]. *)
Definition route (file_path : string) : routed :=
  if negb (Str.startswith file_path "logs/") || negb (endswith file_path ".bin")
  then Ignored
  else
    match nth_error (Str.split "/" file_path) 1 with
    | Some piece => ForTask (Str.replace piece ".bin" "")
    | None => RaiseIndexError
    end.

(** Lines 61 to 67 of [process_drone_log]: the blob is downloaded to a new
    temporary file, and that file is handed to the parser.  [fs] is the
    machine after the download. *)
Definition parse_download (fs : LogParser.filesystem) (dir rand : string)
    : result FlightData.t :=
  let log_file_path := Tempfile.name dir rand in
  LogParser.run fs log_file_path.

End ProcessDroneLog.

(* ================================================================== *)
(** * What the specification calls things                               *)
(* ================================================================== *)

Import DFReader.

(** The samples captured from a recording, in the words of the spec: one
    per position-fix message whose fix quality is at or above the 3D-fix
    threshold, in arrival order, with the position fields divided by [1e7]
    and the altitude converted from centimetres to metres. *)
Fixpoint captured (log : DFReader.t) : list GpsPoint.t :=
  match log with
  | [] => []
  | GPS Status Lat Lng Alt ts :: rest =>
      if Rge_dec Status 3
      then GpsPoint.Build (Lat / 1e7) (Lng / 1e7) (Alt / 100) ts :: captured rest
      else captured rest
  | _ :: rest => captured rest
  end.

(** The operator identity of a recording, in the words of the spec: the
    value of the last named-parameter message with the designated name. *)
Fixpoint operator_identity (log : DFReader.t) : option R :=
  match log with
  | [] => None
  | PARM Name Value :: rest =>
      match operator_identity rest with
      | Some v => Some v
      | None => if String.eqb Name "OPERATOR_PUBKEY" then Some Value else None
      end
  | _ :: rest => operator_identity rest
  end.

(** [m] is the minimum of [l]: an item of [l] below every item. *)
Definition is_minimum (m : R) (l : list R) : Prop :=
  In m l /\ forall x, In x l -> m <= x.

(** [m] is the maximum of [l]: an item of [l] above every item. *)
Definition is_maximum (m : R) (l : list R) : Prop :=
  In m l /\ forall x, In x l -> x <= m.

(** The arithmetic mean of [l]. *)
Definition mean (l : list R) : R := fold_right Rplus 0 l / INR (List.length l).

(** A point lies in the box, edges included. *)
Definition inside_box (b : Bounds.t) (p : GpsPoint.t) : Prop :=
  Bounds.min_lat b <= GpsPoint.lat p <= Bounds.max_lat b
  /\ Bounds.min_lng b <= GpsPoint.lng p <= Bounds.max_lng b.

(** The same as a boolean test. *)
Definition inside_boxb (b : Bounds.t) (p : GpsPoint.t) : bool :=
  le (Bounds.min_lat b) (GpsPoint.lat p) && le (GpsPoint.lat p) (Bounds.max_lat b)
  && le (Bounds.min_lng b) (GpsPoint.lng p) && le (GpsPoint.lng p) (Bounds.max_lng b).

(** The bounding box of section 4.2 of the spec. *)
Definition spec_bounds (center : Location.t) (area_size : R) : Bounds.t :=
  let lat_offset := (area_size / 2) / 111000 in
  let lng_offset :=
    (area_size / 2) / (111000 * cos (FlightValidator.radians (Location.lat center))) in
  Bounds.Build (Location.lat center - lat_offset) (Location.lat center + lat_offset)
               (Location.lng center - lng_offset) (Location.lng center + lng_offset).

(** The parser-then-validator pipeline, as [process_drone_log] chains
    them: [parse], the constructor of the validator on the summary and the
    task, then [validate]. *)
Definition parse_then_validate (log : DFReader.t) (center : Location.t)
    (area_size max_altitude min_duration : R) (geofencing_enabled : bool)
    : result bool :=
  flight_data <- LogParser.parse_messages log ;;
  validator <- FlightValidator.__init__ flight_data center area_size
                 max_altitude min_duration geofencing_enabled ;;
  Ok (FlightValidator.validate validator).

(* ================================================================== *)
(** * The inputs of the scenarios                                       *)
(* ================================================================== *)

(** Scenario A of the spec: three 3D fixes within 0.00045 degrees of
    (10.0, 20.0), altitudes 10, 20 and 15 m, timestamps 0, 30 and 61 s,
    with an operator key and a message of another type in between. *)
Definition scenario_A_log : DFReader.t :=
  [ GPS 3 100004500 199995500 1000 0;
    PARM "OPERATOR_PUBKEY" 7;
    GPS 3 99995500 200004500 2000 30;
    Other "ATT";
    GPS 4 100000000 200000000 1500 61 ].

Definition scenario_A_center : Location.t := Location.Build 10 20.

(** Two 3D fixes ten seconds apart, the first at time zero. *)
Definition from_zero_log : DFReader.t :=
  [ GPS 3 100000000 200000000 1000 0;
    GPS 3 100000000 200000000 1200 10 ].

(** A recording with no 3D fix, and a machine that stores it. *)
Definition no_fix_log : DFReader.t :=
  [ GPS 2 100000000 200000000 1000 0; PARM "OPERATOR_PUBKEY" 7; Other "ATT" ].

Definition no_fix_fs : LogParser.filesystem :=
  fun path => if String.eqb path "logs/task1.bin" then Some no_fix_log else None.

(** What [parse] returns for scenario A. *)
Definition scenario_A_flight : FlightData.t :=
  FlightData.Build
    [ GpsPoint.Build (100004500 / 1e7) (199995500 / 1e7) (1000 / 100) 0;
      GpsPoint.Build (99995500 / 1e7) (200004500 / 1e7) (2000 / 100) 30;
      GpsPoint.Build (100000000 / 1e7) (200000000 / 1e7) (1500 / 100) 61 ]
    (Some 0) (Some 61) 0 20 15 (Some 7).

(** A summary with the samples, duration and highest altitude of the
    former and other values in the remaining fields. *)
Definition other_operator_flight : FlightData.t :=
  FlightData.Build (FlightData.gps_points scenario_A_flight)
    (Some 5) (Some 66) 0 20 12 None.

(** A JSON string without characters to escape, between its quotes. *)
Definition quoted (s : string) : string :=
  (Json.dquote ++ s ++ Json.dquote)%string.

(** The inverse of [s.encode()] on code points below 256: the string that
    a sequence of UTF-8 bytes encodes, if there is one. *)
Fixpoint decode (bs : list byte) : option string :=
  match bs with
  | [] => Some EmptyString
  | b :: rest =>
      let n := Byte.to_N b in
      if (n <? 128)%N then option_map (String (ascii_of_byte b)) (decode rest)
      else
        match rest with
        | [] => None
        | b2 :: rest' =>
            let n2 := Byte.to_N b2 in
            if ((194 <=? n) && (n <=? 195) && (128 <=? n2) && (n2 <=? 191))%N
            then option_map (String (ascii_of_N ((n - 192) * 64 + (n2 - 128))))
                            (decode rest')
            else None
        end
  end.

(** The task document of scenario A, with integer coordinates, and the
    same with another area size. *)
Definition scenario_A_task : Main.task_spec :=
  Main.TaskSpec
    (Json.PyDict [("lat"%string, Json.PyInt 10); ("lng"%string, Json.PyInt 20)])
    (Json.PyInt 100) (Json.PyInt 50) (Json.PyInt 60) (Json.PyBool true).

Definition wider_task : Main.task_spec :=
  Main.TaskSpec (Main.location scenario_A_task) (Json.PyInt 200)
    (Json.PyInt 50) (Json.PyInt 60) (Json.PyBool true).

(* ================================================================== *)
(** * Vocabulary for the further properties                             *)
(* ================================================================== *)

(** A position message with a 3D fix or better. *)
Definition is_3d_fix (m : DFReader.msg) : Prop :=
  match m with
  | GPS Status _ _ _ _ => Status >= 3
  | _ => False
  end.

(** A parameter message that carries the operator key. *)
Definition sets_operator_key (m : DFReader.msg) : bool :=
  match m with
  | PARM Name _ => String.eqb Name "OPERATOR_PUBKEY"
  | _ => false
  end.

(** A message the parser acts on: a position message with a 3D fix or
    better, or a parameter message that carries the operator key. *)
Definition is_kept (m : DFReader.msg) : bool :=
  match m with
  | GPS Status _ _ _ _ => ge Status 3
  | PARM Name _ => String.eqb Name "OPERATOR_PUBKEY"
  | Other _ => false
  end.

(** The values of the operator-key messages of a recording, in order. *)
Fixpoint operator_keys (log : DFReader.t) : list R :=
  match log with
  | [] => []
  | PARM Name Value :: rest =>
      if String.eqb Name "OPERATOR_PUBKEY" then Value :: operator_keys rest
      else operator_keys rest
  | _ :: rest => operator_keys rest
  end.

(** [old] occurs somewhere in [s]. *)
Fixpoint occurs (old s : string) : bool :=
  match s with
  | EmptyString => String.prefix old s
  | String _ rest => String.prefix old s || occurs old rest
  end.

(** The constructor of the validator followed by [validate]. *)
Definition validated (fd : FlightData.t) (center : Location.t)
    (area_size max_altitude min_duration : R) (geofencing_enabled : bool)
    : result bool :=
  v <- FlightValidator.__init__ fd center area_size max_altitude min_duration
         geofencing_enabled ;;
  Ok (FlightValidator.validate v).

(** Scenario A one second later: fixes at 1, 30 and 62 s, and two operator
    keys. *)
Definition passing_log : DFReader.t :=
  [ GPS 3 100004500 199995500 1000 1;
    PARM "OPERATOR_PUBKEY" 7;
    GPS 3 99995500 200004500 2000 30;
    PARM "OPERATOR_PUBKEY" 9;
    Other "ATT";
    GPS 4 100000000 200000000 1500 62 ].

(** What [parse] returns for it. *)
Definition passing_flight : FlightData.t :=
  FlightData.Build
    [ GpsPoint.Build (100004500 / 1e7) (199995500 / 1e7) (1000 / 100) 1;
      GpsPoint.Build (99995500 / 1e7) (200004500 / 1e7) (2000 / 100) 30;
      GpsPoint.Build (100000000 / 1e7) (200000000 / 1e7) (1500 / 100) 62 ]
    (Some 1) (Some 62) 61 20 15 (Some 9).

(** The same samples in another order. *)
Definition shuffled_flight : FlightData.t :=
  FlightData.Build
    [ GpsPoint.Build (100000000 / 1e7) (200000000 / 1e7) (1500 / 100) 62;
      GpsPoint.Build (100004500 / 1e7) (199995500 / 1e7) (1000 / 100) 1;
      GpsPoint.Build (99995500 / 1e7) (200004500 / 1e7) (2000 / 100) 30 ]
    (Some 1) (Some 62) 61 20 15 (Some 9).

(** A machine that stores the recording under a [.bin] name. *)
Definition passing_fs : LogParser.filesystem :=
  fun path => if String.eqb path "logs/task1.bin" then Some passing_log else None.

(** A machine that stores it under the name of a temporary file. *)
Definition download_fs : LogParser.filesystem :=
  fun path => if String.eqb path "/tmp/tmpk3_9xw0a" then Some passing_log else None.

(* ================================================================== *)
(** * Vocabulary and inputs for the binary64 validator                  *)
(* ================================================================== *)





(** What the C library returns for the cosine of 10 and of 90 degrees in
    radians, and a stand-in for its [cos] with these two values. *)
Definition cos_of_10_degrees : float := 0x1.f838b8c811c17p-1%float.
Definition cos_of_90_degrees : float := 0x1.1a62633145c07p-54%float.

Definition cos_at_10_and_90 (x : float) : float :=
  if (x =? F64.radians 90)%float then cos_of_90_degrees else cos_of_10_degrees.

(** The samples of scenario A as the parser computes them in binary64. *)
Definition scenario_A_points64 : list F64.GpsPoint.t :=
  [ F64.GpsPoint.Build (100004500 / 1e7) (199995500 / 1e7) (1000 / 100) 0;
    F64.GpsPoint.Build (99995500 / 1e7) (200004500 / 1e7) (2000 / 100) 30;
    F64.GpsPoint.Build (100000000 / 1e7) (200000000 / 1e7) (1500 / 100) 61 ]%float.

Definition scenario_A_flight64 : F64.FlightData.t :=
  F64.FlightData.Build scenario_A_points64 (Some 0%float) (Some 61%float)
    0%float 20%float 15%float (Some 7%float).

(** The box of scenario A: centre (10, 20), area size 100. *)
Definition scenario_A_bounds64 : F64.Bounds.t :=
  F64.Bounds.Build (10 - 100 / 2 / 111000)%float (10 + 100 / 2 / 111000)%float
    (20 - 100 / 2 / (111000 * cos_of_10_degrees))%float
    (20 + 100 / 2 / (111000 * cos_of_10_degrees))%float.

Definition scenario_A_validator64 : F64.FlightValidator.t :=
  F64.FlightValidator.Build scenario_A_flight64 (F64.Location.Build 10 20)
    100 50 60 true scenario_A_bounds64.



(* ================================================================== *)
(** * Numbers and built-ins                                             *)
(* ================================================================== *)

Section PyFacts.

Variables x y : R.

Lemma lt_spec : lt x y = true <-> x < y.
Proof. unfold lt. destruct (Rlt_dec x y); split; intros; auto; discriminate. Qed.

Lemma gt_spec : gt x y = true <-> x > y.
Proof. unfold gt. destruct (Rgt_dec x y); split; intros; auto; discriminate. Qed.

Lemma le_spec : le x y = true <-> x <= y.
Proof. unfold le. destruct (Rle_dec x y); split; intros; auto; discriminate. Qed.

Lemma ge_spec : ge x y = true <-> x >= y.
Proof. unfold ge. destruct (Rge_dec x y); split; intros; auto; discriminate. Qed.

Lemma lt_true : x < y -> lt x y = true.
Proof. apply lt_spec. Qed.

Lemma lt_false : ~ x < y -> lt x y = false.
Proof. intros H. destruct (lt x y) eqn:E; auto. apply lt_spec in E. tauto. Qed.

Lemma gt_true : x > y -> gt x y = true.
Proof. apply gt_spec. Qed.

Lemma gt_false : ~ x > y -> gt x y = false.
Proof. intros H. destruct (gt x y) eqn:E; auto. apply gt_spec in E. tauto. Qed.

Lemma le_true : x <= y -> le x y = true.
Proof. apply le_spec. Qed.

Lemma le_false : ~ x <= y -> le x y = false.
Proof. intros H. destruct (le x y) eqn:E; auto. apply le_spec in E. tauto. Qed.

Lemma ge_true : x >= y -> ge x y = true.
Proof. apply ge_spec. Qed.

Lemma ge_false : ~ x >= y -> ge x y = false.
Proof. intros H. destruct (ge x y) eqn:E; auto. apply ge_spec in E. tauto. Qed.

Lemma truthy_true : x <> 0 -> truthy x = true.
Proof. unfold truthy. destruct (Req_dec_T x 0); tauto. Qed.

Lemma truthy_false : x = 0 -> truthy x = false.
Proof. unfold truthy. destruct (Req_dec_T x 0); tauto. Qed.

Lemma truediv_ok : y <> 0 -> truediv x y = Ok (x / y).
Proof. unfold truediv. destruct (Req_dec_T y 0); tauto. Qed.

Lemma truediv_zero : y = 0 -> truediv x y = Raise (ZeroDivisionError "division by zero").
Proof. unfold truediv. destruct (Req_dec_T y 0); tauto. Qed.

End PyFacts.

(** Evaluation of the comparisons and divisions of a goal whose operands
    are numerals. *)
Ltac py_num :=
  match goal with
  | |- context [lt ?a ?b] =>
      first [rewrite (@lt_true a b) by lra | rewrite (@lt_false a b) by lra]
  | |- context [gt ?a ?b] =>
      first [rewrite (@gt_true a b) by lra | rewrite (@gt_false a b) by lra]
  | |- context [le ?a ?b] =>
      first [rewrite (@le_true a b) by lra | rewrite (@le_false a b) by lra]
  | |- context [ge ?a ?b] =>
      first [rewrite (@ge_true a b) by lra | rewrite (@ge_false a b) by lra]
  | |- context [truthy ?a] =>
      first [rewrite (@truthy_true a) by lra | rewrite (@truthy_false a) by lra]
  | |- context [truediv ?a ?b] => rewrite (@truediv_ok a b) by lra
  end.

Ltac py_eval :=
  repeat (cbn [LogParser.process_messages LogParser.summarize bind nonempty negb
               andb orb app fold_left Py.min Py.max Py.sum
               LogParser.gps_points LogParser.altitudes LogParser.timestamps
               LogParser.operator_pubkey LogParser.locals0 String.eqb Ascii.eqb
               Bool.eqb];
          try py_num).

Example endswith_examples :
  endswith "logs/task1.bin" ".bin" = true
  /\ endswith "logs/task1.bin.txt" ".bin" = false
  /\ endswith "bin" ".bin" = false.
Proof. repeat split. Qed.

Section Folds.

Lemma fold_min_acc (xs : list R) : forall acc,
  let m := fold_left (fun m item => if lt item m then item else m) xs acc in
  In m (acc :: xs) /\ m <= acc /\ forall x, In x xs -> m <= x.
Proof.
  induction xs as [|a xs IH]; intros acc; cbn [fold_left].
  - cbn. repeat split; [now left | lra | intros ? []].
  - destruct (lt a acc) eqn:E.
    + apply lt_spec in E.
      destruct (IH a) as (Hin & Hle & Hall).
      split; [now right|]. split; [lra|].
      intros x [<-|Hx]; [exact Hle | now apply Hall].
    + assert (~ a < acc) as Hn by (intros H; apply lt_spec in H; congruence).
      destruct (IH acc) as (Hin & Hle & Hall).
      split; [destruct Hin as [<-|Hin]; [now left | now right; right]|].
      split; [exact Hle|].
      intros x [<-|Hx]; [lra | now apply Hall].
Qed.

Lemma fold_max_acc (xs : list R) : forall acc,
  let m := fold_left (fun m item => if gt item m then item else m) xs acc in
  In m (acc :: xs) /\ acc <= m /\ forall x, In x xs -> x <= m.
Proof.
  induction xs as [|a xs IH]; intros acc; cbn [fold_left].
  - cbn. repeat split; [now left | lra | intros ? []].
  - destruct (gt a acc) eqn:E.
    + apply gt_spec in E.
      destruct (IH a) as (Hin & Hle & Hall).
      split; [now right|]. split; [lra|].
      intros x [<-|Hx]; [exact Hle | now apply Hall].
    + assert (~ a > acc) as Hn by (intros H; apply gt_spec in H; congruence).
      destruct (IH acc) as (Hin & Hle & Hall).
      split; [destruct Hin as [<-|Hin]; [now left | now right; right]|].
      split; [exact Hle|].
      intros x [<-|Hx]; [lra | now apply Hall].
Qed.

(** [min] of a non-empty list returns its minimum. *)
Lemma min_nonempty (l : list R) :
  l <> [] -> exists m, Py.min l = Ok m /\ is_minimum m l.
Proof.
  destruct l as [|x xs]; [congruence|]. intros _.
  eexists. split; [reflexivity|].
  destruct (fold_min_acc xs x) as (Hin & Hle & Hall).
  split; [exact Hin|]. intros y [<-|Hy]; [exact Hle | now apply Hall].
Qed.

(** [max] of a non-empty list returns its maximum. *)
Lemma max_nonempty (l : list R) :
  l <> [] -> exists m, Py.max l = Ok m /\ is_maximum m l.
Proof.
  destruct l as [|x xs]; [congruence|]. intros _.
  eexists. split; [reflexivity|].
  destruct (fold_max_acc xs x) as (Hin & Hle & Hall).
  split; [exact Hin|]. intros y [<-|Hy]; [exact Hle | now apply Hall].
Qed.

Lemma minimum_unique (l : list R) (m m' : R) :
  is_minimum m l -> is_minimum m' l -> m = m'.
Proof.
  intros [Hin Hle] [Hin' Hle']. apply Rle_antisym; auto.
Qed.

Lemma maximum_unique (l : list R) (m m' : R) :
  is_maximum m l -> is_maximum m' l -> m = m'.
Proof.
  intros [Hin Hle] [Hin' Hle']. apply Rle_antisym; auto.
Qed.

Lemma fold_left_plus (l : list R) : forall acc,
  fold_left Rplus l acc = acc + fold_right Rplus 0 l.
Proof.
  induction l as [|a l IH]; intros acc; cbn [fold_left fold_right].
  - lra.
  - rewrite IH. lra.
Qed.

(** [sum(l) / len(l)] of a non-empty list is its arithmetic mean. *)
Lemma sum_div_len (l : list R) :
  l <> [] -> truediv (Py.sum l) (len l) = Ok (mean l).
Proof.
  intros Hl. unfold Py.sum, len, mean.
  rewrite truediv_ok.
  - rewrite fold_left_plus. f_equal. f_equal. lra.
  - apply not_0_INR. destruct l; [congruence | discriminate].
Qed.

End Folds.

Section ParserFacts.

Import LogParser.

(** The message loop never raises, captures exactly the samples the spec
    describes, in order, and keeps the last operator key. *)
Lemma process_messages_spec (log : DFReader.t) : forall st,
  process_messages log st =
  Ok (Locals (gps_points st ++ captured log)
             (altitudes st ++ map GpsPoint.alt (captured log))
             (timestamps st ++ map GpsPoint.timestamp (captured log))
             (match operator_identity log with
              | Some v => Some v
              | None => operator_pubkey st
              end)).
Proof.
  induction log as [|m log IH]; intros st.
  - cbn. rewrite !app_nil_r. now destruct st.
  - destruct m as [Status Lat Lng Alt ts | Name Value | ty];
      cbn [process_messages captured operator_identity].
    + unfold ge. destruct (Rge_dec Status 3).
      * rewrite !truediv_ok by lra. cbn [bind].
        rewrite IH. cbn [gps_points altitudes timestamps operator_pubkey map].
        now rewrite <- !app_assoc.
      * apply IH.
    + destruct (String.eqb Name "OPERATOR_PUBKEY"); rewrite IH;
        cbn [gps_points altitudes timestamps operator_pubkey];
        now destruct (operator_identity log).
    + apply IH.
Qed.

Lemma nonempty_true (A : Type) (l : list A) : l <> [] -> nonempty l = true.
Proof. destruct l; [congruence | reflexivity]. Qed.

(** What [parse] returns for a recording with at least one captured
    sample: every field but [duration] is what the spec says; [duration] is
    [end_time - start_time] only when neither time is zero, and 0
    otherwise. *)
Lemma parse_messages_summary (log : DFReader.t) :
  captured log <> [] ->
  exists t0 t1 top,
    is_minimum t0 (map GpsPoint.timestamp (captured log))
    /\ is_maximum t1 (map GpsPoint.timestamp (captured log))
    /\ is_maximum top (map GpsPoint.alt (captured log))
    /\ parse_messages log =
       Ok (FlightData.Build (captured log) (Some t0) (Some t1)
             (if truthy t0 && truthy t1 then t1 - t0 else 0)
             top (mean (map GpsPoint.alt (captured log)))
             (operator_identity log)).
Proof.
  intros Hne.
  assert (map GpsPoint.timestamp (captured log) <> []) as Hts
    by (destruct (captured log); [congruence | discriminate]).
  assert (map GpsPoint.alt (captured log) <> []) as Hal
    by (destruct (captured log); [congruence | discriminate]).
  destruct (min_nonempty Hts) as (t0 & Emin & Hmin).
  destruct (max_nonempty Hts) as (t1 & Emax & Hmax).
  destruct (max_nonempty Hal) as (top & Etop & Htop).
  exists t0, t1, top. repeat split; try apply Hmin; try apply Hmax; try apply Htop.
  unfold parse_messages. rewrite process_messages_spec.
  cbn [bind locals0 gps_points altitudes timestamps operator_pubkey app].
  unfold summarize.
  cbn [gps_points altitudes timestamps operator_pubkey].
  rewrite (nonempty_true Hne), (nonempty_true Hts), (nonempty_true Hal).
  cbn [negb]. rewrite Emin, Emax, Etop, (sum_div_len Hal). cbn [bind].
  now destruct (operator_identity log).
Qed.

(** With no captured sample [parse] raises. *)
Lemma parse_messages_empty (log : DFReader.t) :
  captured log = [] ->
  parse_messages log = Raise (ValueError "No valid GPS points found in log file").
Proof.
  intros He. unfold parse_messages. rewrite process_messages_spec, He.
  reflexivity.
Qed.

End ParserFacts.

Section ValidatorFacts.

Import FlightValidator.

Lemma cos_radians_pos (x : R) : -90 < x < 90 -> 0 < cos (radians x).
Proof.
  intros [Hlo Hhi]. unfold radians.
  pose proof PI_RGT_0 as Hpi.
  apply cos_gt_0; nra.
Qed.

Lemma radians_180 : radians 180 = PI.
Proof. unfold radians. field. Qed.

(** The constructor returns whenever the cosine of the centre latitude is
    not zero, with the bounding box of the spec. *)
Lemma init_ok (fd : FlightData.t) (loc : Location.t) (a ma md : R) (g : bool) :
  cos (radians (Location.lat loc)) <> 0 ->
  __init__ fd loc a ma md g = Ok (Build fd loc a ma md g (spec_bounds loc a)).
Proof.
  intros Hc. unfold __init__.
  rewrite !(@truediv_ok a 2) by lra. cbn [bind].
  rewrite truediv_ok by lra. cbn [bind].
  rewrite truediv_ok by (apply Rmult_integral_contrapositive_currified; [lra | exact Hc]).
  reflexivity.
Qed.

(** It raises [ZeroDivisionError] when that cosine is zero. *)
Lemma init_zero_division (fd : FlightData.t) (loc : Location.t) (a ma md : R) (g : bool) :
  cos (radians (Location.lat loc)) = 0 ->
  __init__ fd loc a ma md g = Raise (ZeroDivisionError "division by zero").
Proof.
  intros Hc. unfold __init__.
  rewrite !(@truediv_ok a 2) by lra. cbn [bind].
  rewrite truediv_ok by lra. cbn [bind].
  rewrite truediv_zero by (rewrite Hc; lra).
  reflexivity.
Qed.

(** Between the poles a degree of longitude is no longer than a degree of
    latitude, so the box is at least as wide in longitude as in latitude. *)
Lemma lng_offset_ge_lat_offset (lat a : R) :
  -90 < lat < 90 -> 0 <= a ->
  a / 2 / 111000 <= a / 2 / (111000 * cos (radians lat)).
Proof.
  intros Hlat Ha.
  pose proof (cos_radians_pos Hlat) as Hpos.
  pose proof (COS_bound (radians lat)) as [_ Hle].
  set (c := cos (radians lat)) in *.
  assert (/ 111000 <= / (111000 * c)) as Hinv
    by (apply Rinv_le_contravar; nra).
  unfold Rdiv. apply Rmult_le_compat_l; [lra | exact Hinv].
Qed.

Lemma out_of_bounds_spec (b : Bounds.t) (p : GpsPoint.t) :
  out_of_bounds b p = false <-> inside_box b p.
Proof.
  unfold out_of_bounds, inside_box.
  rewrite !orb_false_iff.
  split.
  - intros [[[H1 H2] H3] H4].
    destruct (Rlt_dec (GpsPoint.lat p) (Bounds.min_lat b)) as [C|C];
      [rewrite lt_true in H1 by exact C; discriminate|].
    destruct (Rgt_dec (GpsPoint.lat p) (Bounds.max_lat b)) as [C2|C2];
      [rewrite gt_true in H2 by exact C2; discriminate|].
    destruct (Rlt_dec (GpsPoint.lng p) (Bounds.min_lng b)) as [C3|C3];
      [rewrite lt_true in H3 by exact C3; discriminate|].
    destruct (Rgt_dec (GpsPoint.lng p) (Bounds.max_lng b)) as [C4|C4];
      [rewrite gt_true in H4 by exact C4; discriminate|].
    lra.
  - intros [[H1 H2] [H3 H4]].
    rewrite !lt_false, !gt_false by lra. tauto.
Qed.

Lemma inside_boxb_spec (b : Bounds.t) (p : GpsPoint.t) :
  inside_boxb b p = true <-> inside_box b p.
Proof.
  unfold inside_boxb, inside_box.
  rewrite !andb_true_iff, !le_spec. tauto.
Qed.

Lemma out_of_bounds_inside_boxb (b : Bounds.t) (p : GpsPoint.t) :
  out_of_bounds b p = negb (inside_boxb b p).
Proof.
  destruct (out_of_bounds b p) eqn:Eo, (inside_boxb b p) eqn:Ei; try reflexivity.
  - apply inside_boxb_spec, out_of_bounds_spec in Ei. congruence.
  - apply out_of_bounds_spec, inside_boxb_spec in Eo. congruence.
Qed.

(** The loop with its early return computes the conjunction over all
    points. *)
Lemma geofence_loop_forallb (b : Bounds.t) (points : list GpsPoint.t) :
  geofence_loop b points = forallb (inside_boxb b) points.
Proof.
  induction points as [|p points IH]; cbn [geofence_loop forallb]; [reflexivity|].
  rewrite out_of_bounds_inside_boxb, IH.
  now destruct (inside_boxb b p).
Qed.

Lemma geofence_loop_spec (b : Bounds.t) (points : list GpsPoint.t) :
  geofence_loop b points = true <-> Forall (inside_box b) points.
Proof.
  rewrite geofence_loop_forallb, forallb_forall, Forall_forall.
  split; intros H p Hp; apply inside_boxb_spec; auto.
Qed.

End ValidatorFacts.

(* ================================================================== *)
(** * The validator (claims C6, C7, C9, C10)                            *)
(* ================================================================== *)

Section ValidatorClaims.

Import FlightValidator.

(** C6. [validate] returns the [overall_valid] field of
    [get_validation_details]; both compute the three sub-checks by the same
    methods; and [overall_valid] is the conjunction of the three fields. *)
Theorem C6_validate_agrees_with_details (v : FlightValidator.t) :
  let d := get_validation_details v in
  let geofence := if geofencing_enabled v then _validate_geofence v else true in
  validate v = Details.overall_valid d
  /\ validate v = _validate_duration v && _validate_altitude v && geofence
  /\ Details.duration_valid d = _validate_duration v
  /\ Details.altitude_valid d = _validate_altitude v
  /\ Details.geofence_valid d = geofence
  /\ Details.overall_valid d
     = Details.duration_valid d && Details.altitude_valid d && Details.geofence_valid d.
Proof.
  cbn zeta. unfold validate, get_validation_details.
  cbn [Details.overall_valid Details.duration_valid Details.altitude_valid
       Details.geofence_valid].
  repeat split.
Qed.

(** C7. The duration check holds exactly when the flight lasted at least
    the minimum duration, the altitude check exactly when the highest
    altitude is at most the ceiling; a flight at exactly the minimum
    duration, or at exactly the ceiling, passes. *)
Theorem C7_duration_and_altitude_inclusive (v : FlightValidator.t) :
  let fd := flight_data v in
  (_validate_duration v = true <-> FlightData.duration fd >= min_duration v)
  /\ (_validate_altitude v = true <-> FlightData.max_altitude fd <= max_altitude v)
  /\ (FlightData.duration fd = min_duration v -> _validate_duration v = true)
  /\ (FlightData.max_altitude fd = max_altitude v -> _validate_altitude v = true).
Proof.
  cbn zeta. unfold _validate_duration, _validate_altitude.
  repeat split.
  - apply ge_spec.
  - apply ge_spec.
  - apply le_spec.
  - apply le_spec.
  - intros ->. apply ge_true. lra.
  - intros ->. apply le_true. lra.
Qed.

(** C9, as the code has it.  A centre latitude outside [-90, 90] is not
    rejected: the constructor has no range check, and derives the bounding
    box of the spec from such a centre like from any other, raising only
    where the cosine of the latitude is zero. *)
Theorem C9_latitude_out_of_range_is_not_rejected (fd : FlightData.t)
    (center : Location.t) (area_size ma md : R) (g : bool) :
  Location.lat center < -90 \/ 90 < Location.lat center ->
  cos (radians (Location.lat center)) <> 0 ->
  __init__ fd center area_size ma md g
  = Ok (Build fd center area_size ma md g (spec_bounds center area_size)).
Proof.
  intros _ Hc. now apply init_ok.
Qed.

(** C9, at a centre on latitude 180: the constructor returns a validator,
    whose box has its western edge east of its eastern edge. *)
Lemma C9_latitude_180_gets_a_box :
  90 < Location.lat (Location.Build 180 20)
  /\ __init__ scenario_A_flight (Location.Build 180 20) 100 50 60 true
     = Ok (Build scenario_A_flight (Location.Build 180 20) 100 50 60 true
             (Bounds.Build (180 - 50 / 111000) (180 + 50 / 111000)
                           (20 + 50 / 111000) (20 - 50 / 111000))).
Proof.
  split; [cbn; lra|].
  rewrite init_ok.
  - unfold spec_bounds. cbn [Location.lat Location.lng].
    rewrite radians_180, cos_PI.
    do 2 f_equal. f_equal; field.
  - cbn [Location.lat]. rewrite radians_180, cos_PI. lra.
Qed.

(** The same at latitude 180, where the cosine is -1. *)
Lemma C9_witness :
  __init__ scenario_A_flight (Location.Build 180 20) 100 50 60 true
  = Ok (Build scenario_A_flight (Location.Build 180 20) 100 50 60 true
          (spec_bounds (Location.Build 180 20) 100)).
Proof.
  apply (@C9_latitude_out_of_range_is_not_rejected
           scenario_A_flight (Location.Build 180 20) 100 50 60 true).
  - right. cbn. lra.
  - cbn [Location.lat]. rewrite radians_180, cos_PI. lra.
Defined.

(** C10. Two summaries with the same duration, highest altitude and
    samples get the same result from [validate] and from
    [get_validation_details] under every task, whatever their operator
    key, average altitude, start time and end time. *)
Theorem C10_verdict_ignores_other_fields (fd1 fd2 : FlightData.t)
    (center : Location.t) (area_size ma md : R) (g : bool) :
  FlightData.duration fd1 = FlightData.duration fd2 ->
  FlightData.max_altitude fd1 = FlightData.max_altitude fd2 ->
  FlightData.gps_points fd1 = FlightData.gps_points fd2 ->
  (v <- __init__ fd1 center area_size ma md g ;; Ok (validate v))
  = (v <- __init__ fd2 center area_size ma md g ;; Ok (validate v))
  /\ (v <- __init__ fd1 center area_size ma md g ;; Ok (get_validation_details v))
     = (v <- __init__ fd2 center area_size ma md g ;; Ok (get_validation_details v)).
Proof.
  intros Hd Ha Hp.
  destruct (Req_dec_T (cos (radians (Location.lat center))) 0) as [Hz|Hnz].
  - rewrite !init_zero_division by exact Hz. split; reflexivity.
  - rewrite !init_ok by exact Hnz. cbn [bind].
    unfold validate, get_validation_details, _validate_duration,
      _validate_altitude, _validate_geofence.
    cbn [flight_data min_duration max_altitude geofencing_enabled bounds].
    rewrite Hd, Ha, Hp. split; reflexivity.
Qed.

(** The summary of scenario A and one with another start time, end time,
    average altitude and no operator key get the same results. *)
Lemma C10_witness :
  (v <- __init__ scenario_A_flight scenario_A_center 100 50 60 true ;; Ok (validate v))
  = (v <- __init__ other_operator_flight scenario_A_center 100 50 60 true ;; Ok (validate v))
  /\ (v <- __init__ scenario_A_flight scenario_A_center 100 50 60 true ;;
      Ok (get_validation_details v))
     = (v <- __init__ other_operator_flight scenario_A_center 100 50 60 true ;;
        Ok (get_validation_details v)).
Proof.
  apply (@C10_verdict_ignores_other_fields scenario_A_flight other_operator_flight
           scenario_A_center 100 50 60 true); reflexivity.
Defined.

End ValidatorClaims.

(* ================================================================== *)
(** * The validator over binary64 (claims C4 and C8)                    *)
(* ================================================================== *)

Section FloatOrder.

(** Swapping the operands of a comparison swaps its outcome. *)
Lemma SFcompare_swap (x y : spec_float) :
  SFcompare y x = option_map CompOpp (SFcompare x y).
Proof.
  destruct x as [sx|sx| |sx mx ex], y as [sy|sy| |sy my ey]; cbn;
    try reflexivity;
    try (destruct sx; reflexivity); try (destruct sy; reflexivity);
    try (destruct sx, sy; reflexivity).
  destruct sx, sy; try reflexivity; cbn;
    rewrite (Z.compare_antisym ex ey); destruct (ex ?= ey)%Z; cbn; try reflexivity;
    rewrite (Pos.compare_cont_antisym mx my Eq); cbn;
    destruct (Pos.compare_cont Eq mx my); reflexivity.
Qed.

(** A comparison has no outcome exactly when an operand is NaN. *)
Lemma SFcompare_none (x y : spec_float) :
  SFcompare x y = None <-> x = S754_nan \/ y = S754_nan.
Proof.
  destruct x as [sx|sx| |sx mx ex], y as [sy|sy| |sy my ey]; cbn;
    split; intros H; try discriminate; try tauto;
    try (destruct H; discriminate).
Qed.

Lemma is_nan_spec (x : float) : is_nan x = true <-> Prim2SF x = S754_nan.
Proof.
  unfold is_nan. rewrite eqb_spec. unfold SFeqb.
  pose proof (SFcompare_swap (Prim2SF x) (Prim2SF x)) as Hs.
  pose proof (SFcompare_none (Prim2SF x) (Prim2SF x)) as Hn.
  destruct (SFcompare (Prim2SF x) (Prim2SF x)) as [[| |]|]; cbn in *;
    try discriminate; split; intros H; try discriminate; try tauto.
  all: try (destruct Hn as [_ Hn]; specialize (Hn (or_introl H)); discriminate).
Qed.



(** With a NaN operand every comparison is false. *)
Lemma nan_compares_false (x y : float) :
  is_nan x = true \/ is_nan y = true ->
  F64.lt x y = false /\ F64.gt x y = false /\ F64.le x y = false /\ F64.ge x y = false.
Proof.
  intros H. unfold F64.lt, F64.gt, F64.le, F64.ge.
  rewrite !ltb_spec, !leb_spec. unfold SFltb, SFleb.
  assert (SFcompare (Prim2SF x) (Prim2SF y) = None) as E1.
  { apply SFcompare_none. destruct H as [H|H]; apply is_nan_spec in H; tauto. }
  assert (SFcompare (Prim2SF y) (Prim2SF x) = None) as E2.
  { apply SFcompare_none. destruct H as [H|H]; apply is_nan_spec in H; tauto. }
  rewrite E1, E2. repeat split.
Qed.

End FloatOrder.

Section Validator64.

Import F64 F64.FlightValidator.


(** A point whose coordinates are NaN is never out of bounds, and neither
    is any point when the bounds are NaN. *)
Lemma nan_is_never_out_of_bounds (b : Bounds.t) (p : GpsPoint.t) :
  (is_nan (GpsPoint.lat p) = true /\ is_nan (GpsPoint.lng p) = true)
  \/ (is_nan (Bounds.min_lat b) = true /\ is_nan (Bounds.max_lat b) = true
      /\ is_nan (Bounds.min_lng b) = true /\ is_nan (Bounds.max_lng b) = true) ->
  out_of_bounds b p = false.
Proof.
  intros H. unfold out_of_bounds.
  assert (lt (GpsPoint.lat p) (Bounds.min_lat b) = false) as ->
    by (apply nan_compares_false; tauto).
  assert (gt (GpsPoint.lat p) (Bounds.max_lat b) = false) as ->
    by (apply nan_compares_false; tauto).
  assert (lt (GpsPoint.lng p) (Bounds.min_lng b) = false) as ->
    by (apply nan_compares_false; tauto).
  assert (gt (GpsPoint.lng p) (Bounds.max_lng b) = false) as ->
    by (apply nan_compares_false; tauto).
  reflexivity.
Qed.






(** A sample on an edge of the box of scenario A is inside. *)
Example edge_sample_is_inside64 :
  out_of_bounds scenario_A_bounds64
    (GpsPoint.Build (Bounds.max_lat scenario_A_bounds64)
                    (Bounds.min_lng scenario_A_bounds64) 10 5) = false.
Proof. vm_compute. reflexivity. Qed.

(** C8. The constructor derives the bounding box
    [center.lat -/+ lat_offset], [center.lng -/+ lng_offset] with
    [lat_offset = (area_size / 2) / 111000] and
    [lng_offset = (area_size / 2) / (111000 * cos(radians(center.lat)))],
    each operation rounded to binary64, for every task for which
    [math.cos] returns and the divisor is not zero; it raises only what
    [math.cos] raises and [ZeroDivisionError] for a zero divisor.  At the
    pole, where the C library returns [6.123233995736766e-17] for the
    cosine, the divisor is not zero and the box is derived. *)
Theorem C8_bounding_box_binary64 (libm_cos : float -> float)
    (fd : FlightData.t) (center : Location.t) (area_size ma md : float)
    (g : bool) :
  __init__ libm_cos fd center area_size ma md g
  = match cos libm_cos (Location.lat center * (pi / 180))%float with
    | Raise e => Raise e
    | Ok c =>
        if (111000 * c =? 0)%float
        then Raise (ZeroDivisionError "float division by zero")
        else
          Ok (Build fd center area_size ma md g
                (Bounds.Build
                   (Location.lat center - area_size / 2 / 111000)%float
                   (Location.lat center + area_size / 2 / 111000)%float
                   (Location.lng center - area_size / 2 / (111000 * c))%float
                   (Location.lng center + area_size / 2 / (111000 * c))%float))
    end
  /\ (libm_cos (90 * (pi / 180))%float = cos_of_90_degrees ->
      Location.lat center = 90%float ->
      __init__ libm_cos fd center area_size ma md g
      = Ok (Build fd center area_size ma md g
              (Bounds.Build
                 (90 - area_size / 2 / 111000)%float
                 (90 + area_size / 2 / 111000)%float
                 (Location.lng center
                  - area_size / 2 / (111000 * cos_of_90_degrees))%float
                 (Location.lng center
                  + area_size / 2 / (111000 * cos_of_90_degrees))%float))).
Proof.
  assert (forall x, truediv x 2 = Ok (x / 2)%float) as Hdiv2 by reflexivity.
  assert (forall x, truediv x 111000 = Ok (x / 111000)%float) as Hdiv by reflexivity.
  split.
  - unfold __init__. rewrite !Hdiv2. cbn [bind]. rewrite Hdiv. cbn [bind].
    unfold radians.
    destruct (cos libm_cos (Location.lat center * (pi / 180))%float) as [c|e];
      cbn [bind]; [|reflexivity].
    unfold truediv. now destruct (111000 * c =? 0)%float.
  - intros Hcos Hlat. unfold __init__. rewrite !Hdiv2. cbn [bind].
    rewrite Hdiv. cbn [bind]. unfold radians, cos. rewrite Hlat, Hcos.
    reflexivity.
Qed.

(** Scenario A in binary64: the constructor returns the box
    [9.999549549549549, 10.000450450450451] by
    [19.999542600625276, 20.000457399374724], and at latitude 90 a box
    some [7.3e12] degrees wide in longitude. *)
Example bounding_boxes64 :
  __init__ cos_at_10_and_90 scenario_A_flight64 (Location.Build 10 20) 100 50 60 true
  = Ok scenario_A_validator64
  /\ scenario_A_bounds64
     = Bounds.Build 0x1.3ffc4f56417fcp+3 0x1.4003b0a9be804p+3
                    0x1.3ffe2061ca4f4p+4 0x1.4001df9e35b0cp+4
  /\ (v <- __init__ cos_at_10_and_90 scenario_A_flight64 (Location.Build 90 20)
             100 50 60 true ;;
      Ok (bounds v))
     = Ok (Bounds.Build 0x1.67ff89eac83p+6 0x1.6800761537dp+6
                        (-0x1.ac331cd7083e9p+42) 0x1.ac331cd7123e9p+42).
Proof. repeat split; vm_compute; reflexivity. Qed.

End Validator64.

Section NanArea64.

Import F64 F64.FlightValidator.

(** NaN spreads through division, subtraction and addition. *)
Lemma nan_spreads (x y : float) :
  is_nan x = true \/ is_nan y = true ->
  is_nan (x / y) = true /\ is_nan (x - y) = true /\ is_nan (x + y) = true.
Proof.
  intros H. rewrite !is_nan_spec, div_spec, sub_spec, add_spec.
  unfold SF64div, SF64sub, SF64add.
  destruct H as [H|H]; apply is_nan_spec in H; rewrite H.
  - repeat split.
  - destruct (Prim2SF x); repeat split.
Qed.

(** X19. An area size of NaN is not rejected: when [math.cos] returns and
    the divisor is not zero, the constructor derives a box whose four
    bounds are NaN, the test of the geofence loop is false for every
    sample, and with geofencing on the verdict is that of the duration and
    altitude checks alone, wherever the flight went. *)
Theorem X19_nan_area_size_disables_the_geofence (libm_cos : float -> float)
    (fd : FlightData.t) (center : Location.t) (area_size ma md c : float) :
  is_nan area_size = true ->
  cos libm_cos (radians (Location.lat center)) = Ok c ->
  (111000 * c =? 0)%float = false ->
  exists v,
    __init__ libm_cos fd center area_size ma md true = Ok v
    /\ is_nan (Bounds.min_lat (bounds v)) = true
    /\ is_nan (Bounds.max_lat (bounds v)) = true
    /\ is_nan (Bounds.min_lng (bounds v)) = true
    /\ is_nan (Bounds.max_lng (bounds v)) = true
    /\ _validate_geofence v = true
    /\ validate v = _validate_duration v && _validate_altitude v.
Proof.
  intros Hnan Hcos Hdiv.
  assert (forall x, truediv x 2 = Ok (x / 2)%float) as Hdiv2 by reflexivity.
  assert (forall x, truediv x 111000 = Ok (x / 111000)%float) as Hdivk by reflexivity.
  unfold __init__. rewrite !Hdiv2. cbn [bind]. rewrite Hdivk, Hcos. cbn [bind].
  unfold truediv at 1. rewrite Hdiv. cbn [bind].
  eexists. split; [reflexivity|]. cbn [bounds Bounds.min_lat Bounds.max_lat
                                      Bounds.min_lng Bounds.max_lng].
  assert (is_nan (area_size / 2) = true) as Hhalf
    by (apply nan_spreads; now left).
  assert (is_nan (area_size / 2 / 111000) = true) as Hlat
    by (apply nan_spreads; now left).
  assert (is_nan (area_size / 2 / (111000 * c)) = true) as Hlng
    by (apply nan_spreads; now left).
  assert (is_nan (Location.lat center - area_size / 2 / 111000) = true) as B1
    by (apply nan_spreads; now right).
  assert (is_nan (Location.lat center + area_size / 2 / 111000) = true) as B2
    by (apply nan_spreads; now right).
  assert (is_nan (Location.lng center - area_size / 2 / (111000 * c)) = true) as B3
    by (apply nan_spreads; now right).
  assert (is_nan (Location.lng center + area_size / 2 / (111000 * c)) = true) as B4
    by (apply nan_spreads; now right).
  repeat (split; [assumption|]).
  assert (forall points,
            geofence_loop
              (Bounds.Build (Location.lat center - area_size / 2 / 111000)
                            (Location.lat center + area_size / 2 / 111000)
                            (Location.lng center - area_size / 2 / (111000 * c))
                            (Location.lng center + area_size / 2 / (111000 * c)))
              points = true) as Hloop.
  { induction points as [|p points IH]; [reflexivity|].
    cbn [geofence_loop]. rewrite nan_is_never_out_of_bounds; [exact IH|].
    right. cbn [Bounds.min_lat Bounds.max_lat Bounds.min_lng Bounds.max_lng].
    tauto. }
  unfold validate, _validate_geofence.
  cbn [geofencing_enabled bounds flight_data]. rewrite Hloop.
  split; [reflexivity | now rewrite andb_true_r].
Qed.

Lemma X19_witness :
  exists v,
    __init__ cos_at_10_and_90 scenario_A_flight64 (Location.Build 10 20)
      nan 50 60 true = Ok v
    /\ is_nan (Bounds.min_lat (bounds v)) = true
    /\ is_nan (Bounds.max_lat (bounds v)) = true
    /\ is_nan (Bounds.min_lng (bounds v)) = true
    /\ is_nan (Bounds.max_lng (bounds v)) = true
    /\ _validate_geofence v = true
    /\ validate v = _validate_duration v && _validate_altitude v.
Proof.
  apply (@X19_nan_area_size_disables_the_geofence cos_at_10_and_90
           scenario_A_flight64 (Location.Build 10 20) nan 50 60 cos_of_10_degrees);
    vm_compute; reflexivity.
Defined.

End NanArea64.

(* ================================================================== *)
(** * The parser (claims C1, C2, C5)                                    *)
(* ================================================================== *)

Section ParserClaims.

Import LogParser FlightValidator.

Lemma scenario_A_parsed : parse_messages scenario_A_log = Ok scenario_A_flight.
Proof.
  unfold parse_messages, scenario_A_log.
  py_eval. unfold len. cbn [List.length INR]. py_eval.
  unfold scenario_A_flight. do 2 f_equal; lra.
Qed.

Lemma scenario_A_inside :
  Forall (inside_box (spec_bounds scenario_A_center 100))
         (FlightData.gps_points scenario_A_flight).
Proof.
  assert (-90 < 10 < 90) as Hlat by lra.
  assert (0 <= 100) as Ha by lra.
  pose proof (lng_offset_ge_lat_offset Hlat Ha) as Hoff.
  unfold spec_bounds, scenario_A_center, scenario_A_flight, inside_box.
  cbn [Location.lat Location.lng FlightData.gps_points].
  set (off := 100 / 2 / (111000 * cos (radians 10))) in *.
  repeat constructor;
    cbn [GpsPoint.lat GpsPoint.lng Bounds.min_lat Bounds.max_lat
         Bounds.min_lng Bounds.max_lng]; lra.
Qed.

(** C1, on the code.  For scenario A the parser returns the three samples
    with start time 0 and end time 61, and a duration of 0, not 61: a start
    time of zero is falsy in [if start_time and end_time].  The altitude and
    geofence checks pass, the duration check fails, and the verdict is
    false. *)
Theorem C1_scenario_A_verdict_on_code :
  parse_messages scenario_A_log = Ok scenario_A_flight
  /\ FlightData.start_time scenario_A_flight = Some 0
  /\ FlightData.end_time scenario_A_flight = Some 61
  /\ FlightData.duration scenario_A_flight = 0
  /\ parse_then_validate scenario_A_log scenario_A_center 100 50 60 true = Ok false
  /\ exists v,
       __init__ scenario_A_flight scenario_A_center 100 50 60 true = Ok v
       /\ get_validation_details v = Details.Build false true true false
       /\ validate v = false.
Proof.
  assert (cos (radians (Location.lat scenario_A_center)) <> 0) as Hcos
    by (apply Rgt_not_eq, cos_radians_pos; cbn; lra).
  split; [exact scenario_A_parsed|].
  do 3 (split; [reflexivity|]).
  split.
  { unfold parse_then_validate. rewrite scenario_A_parsed. cbn [bind].
    rewrite (@init_ok _ _ _ _ _ _ Hcos). cbn [bind].
    unfold validate, _validate_duration.
    cbn [flight_data min_duration FlightData.duration scenario_A_flight].
    rewrite (@ge_false 0 60) by lra. reflexivity. }
  eexists. split.
  - apply init_ok, Hcos.
  - assert (geofence_loop (spec_bounds scenario_A_center 100)
              (FlightData.gps_points scenario_A_flight) = true) as Hgeo
      by (apply geofence_loop_spec, scenario_A_inside).
    unfold validate, get_validation_details, _validate_duration,
      _validate_altitude, _validate_geofence.
    cbn [flight_data min_duration max_altitude geofencing_enabled bounds].
    rewrite Hgeo.
    cbn [FlightData.duration FlightData.max_altitude scenario_A_flight].
    rewrite (@ge_false 0 60), (@le_true 20 50) by lra.
    split; reflexivity.
Qed.

(** C2, on the code.  For two fixes at times 0 and 10 the parser returns
    start time 0, end time 10, highest altitude 12 and average altitude 11,
    and a duration of 0, where [end_time - start_time] is 10. *)
Theorem C2_duration_is_zero_from_time_zero :
  exists fd,
    parse_messages from_zero_log = Ok fd
    /\ FlightData.start_time fd = Some 0
    /\ FlightData.end_time fd = Some 10
    /\ FlightData.duration fd = 0
    /\ FlightData.max_altitude fd = 12
    /\ FlightData.avg_altitude fd = 11.
Proof.
  eexists. split.
  - unfold parse_messages, from_zero_log.
    py_eval. unfold len. cbn [List.length INR]. py_eval.
    reflexivity.
  - cbn [FlightData.start_time FlightData.end_time FlightData.duration
         FlightData.max_altitude FlightData.avg_altitude].
    repeat split; lra.
Qed.

(** C5. A source from which no sample is captured yields no summary: with
    no file at the path the constructor raises [FileNotFoundError]; with a
    path not ending in [.bin] it raises [ValueError]; and for a [.bin] file
    with no qualifying fix [parse] raises [ValueError]. *)
Theorem C5_no_sample_no_summary (fs : filesystem) (log_path : string) :
  endswith log_path ".bin" = false
  \/ (forall log, fs log_path = Some log -> captured log = []) ->
  run fs log_path =
  match fs log_path with
  | None => Raise (FileNotFoundError ("Log file not found at " ++ log_path))
  | Some _ =>
      if endswith log_path ".bin"
      then Raise (ValueError "No valid GPS points found in log file")
      else Raise (ValueError
                    ("Unsupported log format. Expected .bin file, got " ++ log_path))
  end.
Proof.
  intros H. unfold run, LogParser.__init__, exists_.
  destruct (fs log_path) as [log|] eqn:Efs; cbn [negb bind]; [|reflexivity].
  destruct (endswith log_path ".bin") eqn:Esuf; cbn [negb bind]; [|reflexivity].
  destruct H as [H|H]; [discriminate|].
  unfold parse. cbn [LogParser.log_path]. rewrite Efs.
  now apply parse_messages_empty, H.
Qed.

(** The verdict of the pipeline depends on the recording through its
    captured samples only: messages of other types, the operator key among
    them, change nothing. *)
Lemma verdict_depends_on_samples_only (log1 log2 : DFReader.t)
    (center : Location.t) (a ma md : R) (g : bool) :
  captured log1 = captured log2 ->
  parse_then_validate log1 center a ma md g
  = parse_then_validate log2 center a ma md g.
Proof.
  intros Hc. unfold parse_then_validate.
  destruct (captured log2) as [|p ps] eqn:E2.
  - rewrite (parse_messages_empty _ Hc), (parse_messages_empty _ E2). reflexivity.
  - assert (captured log1 <> []) as N1 by (rewrite Hc; discriminate).
    assert (captured log2 <> []) as N2 by (rewrite E2; discriminate).
    destruct (parse_messages_summary log1 N1)
      as (t0 & t1 & top & Hmin & Hmax & Htop & ->).
    destruct (parse_messages_summary log2 N2)
      as (u0 & u1 & top' & Hmin' & Hmax' & Htop' & ->).
    rewrite Hc in *. rewrite E2 in *.
    rewrite (minimum_unique Hmin Hmin'), (maximum_unique Hmax Hmax'),
      (maximum_unique Htop Htop').
    cbn [bind].
    destruct (Req_dec_T (cos (FlightValidator.radians (Location.lat center))) 0)
      as [Hz|Hnz].
    + rewrite !init_zero_division by exact Hz. reflexivity.
    + rewrite !init_ok by exact Hnz. reflexivity.
Qed.

(** An operator key in front of a recording leaves its verdict as it is. *)
Lemma operator_key_does_not_change_verdict (log : DFReader.t) (key : R)
    (center : Location.t) (a ma md : R) (g : bool) :
  parse_then_validate (PARM "OPERATOR_PUBKEY" key :: log) center a ma md g
  = parse_then_validate log center a ma md g.
Proof. apply verdict_depends_on_samples_only. reflexivity. Qed.

Lemma no_fix_captured : captured no_fix_log = [].
Proof.
  unfold no_fix_log. cbn [captured].
  destruct (Rge_dec 2 3); [lra | reflexivity].
Qed.

(** A [.bin] file whose only position message has a 2D fix. *)
Lemma C5_witness :
  run no_fix_fs "logs/task1.bin"
  = Raise (ValueError "No valid GPS points found in log file").
Proof.
  apply (@C5_no_sample_no_summary no_fix_fs "logs/task1.bin").
  right. intros log H. vm_compute in H. injection H as <-.
  exact no_fix_captured.
Defined.

End ParserClaims.

(* ================================================================== *)
(** * The report hash (claim C3)                                        *)
(* ================================================================== *)

Section HashFacts.

Import SHA256.

Example sha256_abc :
  sha256_hexdigest (list_byte_of_string "abc")
  = "ba7816bf8f01cfea414140de5dae2223b00361a396177a9cb410ff61f20015ad"%string.
Proof. vm_compute. reflexivity. Qed.

Example sha256_empty :
  sha256_hexdigest []
  = "e3b0c44298fc1c149afbf4c8996fb92427ae41e4649b934ca495991b7852b855"%string.
Proof. vm_compute. reflexivity. Qed.

Example sha256_two_blocks :
  sha256_hexdigest
    (list_byte_of_string "abcdbcdecdefdefgefghfghighijhijkijkljklmklmnlmnomnopnopq")
  = "248d6a61d20638b8e5c026930c3e6039a33ce45964ff2167f6ecedd419db06c1"%string.
Proof. vm_compute. reflexivity. Qed.

Lemma compress_length (h block : list Z) :
  List.length h = 8%nat -> List.length (compress h block) = 8%nat.
Proof.
  intros Hh. unfold compress.
  rewrite length_map, length_combine, Hh. reflexivity.
Qed.

Lemma fold_compress_length (blocks : list (list Z)) : forall h,
  List.length h = 8%nat -> List.length (fold_left compress blocks h) = 8%nat.
Proof.
  induction blocks as [|b blocks IH]; intros h Hh; cbn [fold_left].
  - exact Hh.
  - apply IH, compress_length, Hh.
Qed.

Lemma be_bytes_length (n : nat) (x : Z) : List.length (be_bytes n x) = n.
Proof. induction n as [|n IH]; cbn [be_bytes List.length]; congruence. Qed.

Lemma flat_map_be_bytes_length (h : list Z) :
  List.length (flat_map (be_bytes 4) h) = (4 * List.length h)%nat.
Proof.
  induction h as [|x h IH]; [reflexivity|].
  cbn [flat_map]. rewrite length_app, be_bytes_length, IH. cbn [List.length]. lia.
Qed.

Lemma hex_length (bs : list Z) : String.length (hex bs) = (2 * List.length bs)%nat.
Proof.
  induction bs as [|b bs IH]; [reflexivity|].
  cbn [hex String.length List.length]. rewrite IH. lia.
Qed.

(** The digest is 32 bytes and its hexadecimal form 64 characters, for
    every message. *)
Lemma sha256_hexdigest_length (data : list byte) :
  String.length (sha256_hexdigest data) = 64%nat.
Proof.
  unfold sha256_hexdigest, digest.
  rewrite hex_length, flat_map_be_bytes_length, fold_compress_length; reflexivity.
Qed.

End HashFacts.

Section EncodeFacts.

Import Json.

Lemma encode_app (a b : string) :
  encode (a ++ b)%string = (encode a ++ encode b)%list.
Proof.
  induction a as [|c a IH]; cbn [append encode]; [reflexivity|].
  now rewrite IH, app_assoc.
Qed.

Lemma decode_encode_char (c : ascii) (rest : list byte) :
  decode (encode_char c ++ rest) = option_map (String c) (decode rest).
Proof.
  destruct c as [b0 b1 b2 b3 b4 b5 b6 b7].
  destruct b0, b1, b2, b3, b4, b5, b6, b7; reflexivity.
Qed.

(** Decoding the bytes of a string gives the string back. *)
Lemma decode_encode (s : string) : decode (encode s) = Some s.
Proof.
  induction s as [|c s IH]; [reflexivity|].
  cbn [encode]. now rewrite decode_encode_char, IH.
Qed.

(** Two strings with the same bytes are the same string. *)
Lemma encode_injective (a b : string) : encode a = encode b -> a = b.
Proof.
  intros H. apply (f_equal decode) in H. rewrite !decode_encode in H.
  now injection H.
Qed.

End EncodeFacts.

Section HashClaims.

Import Json Main.

Variable float_repr : R -> string.

(** C3. The report hash is the hexadecimal SHA-256 digest of the raw log
    bytes, then the bytes of the serialized parameters, then the bytes of
    [str] of the verdict.  The verdict is the four bytes of [True] or the
    five of [False]; the parameters are the bytes of one JSON object with
    the keys location, area_size, altitude, duration and geofencing_enabled
    in this order.  For one log the hashed bytes fix the verdict and the
    serialized parameters.  The digest is that of FIPS 180-4, is 64
    hexadecimal characters, differs on the sample task when the verdict or
    the area size changes, and equal inputs give equal hashes. *)
Theorem C3_report_hash (log_content : list byte) (spec : task_spec)
    (verification_result : bool) :
  verification_report_hash float_repr log_content spec verification_result
  = SHA256.sha256_hexdigest
      (log_content ++ encode (verification_params float_repr spec)
                   ++ encode (str_bool verification_result))%list
  /\ encode (str_bool verification_result)
     = (if verification_result then [x54; x72; x75; x65]
        else [x46; x61; x6c; x73; x65])
  /\ encode (verification_params float_repr spec)
     = (list_byte_of_string ("{" ++ quoted "location" ++ ": ")
        ++ encode (dumps float_repr (location spec))
        ++ list_byte_of_string (", " ++ quoted "area_size" ++ ": ")
        ++ encode (dumps float_repr (area_size spec))
        ++ list_byte_of_string (", " ++ quoted "altitude" ++ ": ")
        ++ encode (dumps float_repr (altitude spec))
        ++ list_byte_of_string (", " ++ quoted "duration" ++ ": ")
        ++ encode (dumps float_repr (duration spec))
        ++ list_byte_of_string (", " ++ quoted "geofencing_enabled" ++ ": ")
        ++ encode (dumps float_repr (geofencing_enabled spec))
        ++ list_byte_of_string "}")%list
  /\ (forall spec' verification_result',
        verification_data float_repr log_content spec' verification_result'
        = verification_data float_repr log_content spec verification_result ->
        verification_result' = verification_result
        /\ verification_params float_repr spec' = verification_params float_repr spec)
  /\ String.length
       (verification_report_hash float_repr log_content spec verification_result)
     = 64%nat
  /\ SHA256.sha256_hexdigest (list_byte_of_string "abc")
     = "ba7816bf8f01cfea414140de5dae2223b00361a396177a9cb410ff61f20015ad"%string
  /\ verification_report_hash float_repr (list_byte_of_string "abc") scenario_A_task true
     = "0f133fb9d6f1e0fbaeb502bd6d8eca365a4ff1af527f2b7a0f3ac2f9ddceffab"%string
  /\ verification_report_hash float_repr (list_byte_of_string "abc") scenario_A_task false
     = "2ceb69ed2098258583987aa717cf1e1aed4c4f6cb85ec262aa54c6510e70f200"%string
  /\ verification_report_hash float_repr (list_byte_of_string "abc") wider_task true
     = "1e5191f6f44bdc2b611c004c279e2ce61af9693c06d9a2d821dcfa231faba9f1"%string
  /\ (forall log_content' spec' verification_result',
        log_content' = log_content -> spec' = spec ->
        verification_result' = verification_result ->
        verification_report_hash float_repr log_content' spec' verification_result'
        = verification_report_hash float_repr log_content spec verification_result).
Proof.
  split; [reflexivity|].
  split; [now destruct verification_result|].
  split.
  { unfold verification_params. cbn [dumps map join fst snd].
    rewrite !encode_app. rewrite <- !app_assoc. reflexivity. }
  split.
  { intros spec' r' H. unfold verification_data in H.
    apply app_inv_head in H.
    destruct r', verification_result.
    - apply app_inv_tail in H. apply encode_injective in H. now split.
    - exfalso. apply (f_equal (@rev byte)) in H. rewrite !rev_app_distr in H.
      cbn in H. discriminate H.
    - exfalso. apply (f_equal (@rev byte)) in H. rewrite !rev_app_distr in H.
      cbn in H. discriminate H.
    - apply app_inv_tail in H. apply encode_injective in H. now split. }
  split; [apply sha256_hexdigest_length|].
  split; [vm_compute; reflexivity|].
  split; [vm_compute; reflexivity|].
  split; [vm_compute; reflexivity|].
  split; [vm_compute; reflexivity|].
  intros ? ? ? -> -> ->. reflexivity.
Qed.

End HashClaims.

(* ================================================================== *)
(** * Further properties of the parser                                  *)
(* ================================================================== *)

Section ParserExtras.

Import LogParser.

Lemma captured_nonempty_iff (log : DFReader.t) :
  captured log <> [] <-> Exists is_3d_fix log.
Proof.
  induction log as [|m log IH].
  - cbn. split; [congruence | intros H; inversion H].
  - destruct m as [Status Lat Lng Alt ts | Name Value | ty]; cbn [captured].
    + destruct (Rge_dec Status 3) as [Hge|Hlt].
      * split; [intros _; left; exact Hge | discriminate].
      * rewrite IH. split; [now right|].
        intros H. inversion H as [? ? Hm|? ? Hr]; [cbn in Hm; tauto | exact Hr].
    + rewrite IH. split; [now right|].
      intros H. inversion H as [? ? Hm|? ? Hr]; [destruct Hm | exact Hr].
    + rewrite IH. split; [now right|].
      intros H. inversion H as [? ? Hm|? ? Hr]; [destruct Hm | exact Hr].
Qed.

(** A summary comes from a recording with a captured sample, and is the
    summary that [parse_messages_summary] describes. *)
Lemma parse_ok_inv (log : DFReader.t) (fd : FlightData.t) :
  parse_messages log = Ok fd ->
  captured log <> []
  /\ exists t0 t1 top,
       is_minimum t0 (map GpsPoint.timestamp (captured log))
       /\ is_maximum t1 (map GpsPoint.timestamp (captured log))
       /\ is_maximum top (map GpsPoint.alt (captured log))
       /\ fd = FlightData.Build (captured log) (Some t0) (Some t1)
                 (if truthy t0 && truthy t1 then t1 - t0 else 0)
                 top (mean (map GpsPoint.alt (captured log)))
                 (operator_identity log).
Proof.
  intros Hok.
  destruct (captured log) as [|p ps] eqn:Ec.
  - rewrite (parse_messages_empty _ Ec) in Hok. discriminate.
  - assert (captured log <> []) as Hne by (rewrite Ec; discriminate).
    split; [discriminate|].
    destruct (parse_messages_summary log Hne) as (t0 & t1 & top & H0 & H1 & H2 & E).
    rewrite Ec in *. exists t0, t1, top. repeat split; try tauto.
    + apply H0. + apply H0. + apply H1. + apply H1. + apply H2. + apply H2.
    + congruence.
Qed.

Lemma passing_parsed : parse_messages passing_log = Ok passing_flight.
Proof.
  unfold parse_messages, passing_log.
  py_eval. unfold len. cbn [List.length INR]. py_eval.
  unfold passing_flight. do 2 f_equal; lra.
Qed.

(** A [.bin] file with three 3D fixes is parsed. *)
Example run_passing : run passing_fs "logs/task1.bin"%string = Ok passing_flight.
Proof.
  unfold run, LogParser.__init__, exists_, parse.
  change (passing_fs "logs/task1.bin"%string) with (Some passing_log).
  change (endswith "logs/task1.bin"%string ".bin"%string) with true.
  cbn [negb bind LogParser.log_path].
  change (passing_fs "logs/task1.bin"%string) with (Some passing_log).
  exact passing_parsed.
Qed.

(** X1. The samples of the summary are the position messages with a fix
    status of 3 or more, in the order of the recording and no others, each
    with latitude and longitude divided by [1e7], altitude divided by 100
    and the timestamp of its message. *)
Theorem X1_samples_are_the_3d_fixes_in_order (log : DFReader.t)
    (fd : FlightData.t) :
  parse_messages log = Ok fd ->
  FlightData.gps_points fd = captured log.
Proof.
  intros Hok. destruct (parse_ok_inv log Hok) as (_ & t0 & t1 & top & _ & _ & _ & ->).
  reflexivity.
Qed.

Lemma X1_witness : FlightData.gps_points passing_flight = captured passing_log.
Proof.
  apply (@X1_samples_are_the_3d_fixes_in_order passing_log passing_flight).
  exact passing_parsed.
Defined.

(** X2. [LogParser(path).parse()] returns a summary exactly when there is
    a file at the path, the path ends in [.bin] and the recording has at
    least one position message with a fix status of 3 or more. *)
Theorem X2_parse_returns_iff (fs : filesystem) (path : string) :
  is_ok (run fs path) = true <->
  exists log, fs path = Some log
              /\ endswith path ".bin" = true
              /\ Exists is_3d_fix log.
Proof.
  unfold run, LogParser.__init__, exists_, parse.
  destruct (fs path) as [log|] eqn:Efs; cbn [negb bind is_ok].
  - destruct (endswith path ".bin") eqn:Esuf; cbn [negb bind is_ok LogParser.log_path].
    + rewrite Efs. split.
      * intros Hok. exists log. repeat split.
        apply captured_nonempty_iff.
        destruct (parse_messages log) as [fd|e] eqn:Ep; [|discriminate].
        apply (parse_ok_inv log Ep).
      * intros (log' & Hl & _ & Hex). injection Hl as <-.
        apply captured_nonempty_iff in Hex.
        destruct (parse_messages_summary log Hex) as (? & ? & ? & _ & _ & _ & ->).
        reflexivity.
    + split; [discriminate|]. intros (log' & _ & Hs & _). discriminate.
  - split; [discriminate|]. intros (log' & Hl & _). discriminate.
Qed.

(** X3. In every summary the start time is at most the end time, every
    sample's timestamp lies between them, and the duration is never
    negative and never more than [end_time - start_time]. *)
Theorem X3_times_ordered_duration_bounded (log : DFReader.t)
    (fd : FlightData.t) :
  parse_messages log = Ok fd ->
  exists t0 t1,
    FlightData.start_time fd = Some t0
    /\ FlightData.end_time fd = Some t1
    /\ t0 <= t1
    /\ Forall (fun p => t0 <= GpsPoint.timestamp p <= t1) (FlightData.gps_points fd)
    /\ 0 <= FlightData.duration fd <= t1 - t0.
Proof.
  intros Hok.
  destruct (parse_ok_inv log Hok) as (Hne & t0 & t1 & top & [Hi0 Hl0] & [Hi1 Hl1] & _ & ->).
  exists t0, t1. cbn [FlightData.start_time FlightData.end_time
                      FlightData.gps_points FlightData.duration].
  assert (t0 <= t1) as Hle by (apply Hl0, Hi1).
  repeat split; try assumption.
  - apply Forall_forall. intros p Hp.
    split; [apply Hl0 | apply Hl1]; now apply in_map.
  - destruct (truthy t0 && truthy t1); lra.
  - destruct (truthy t0 && truthy t1); lra.
Qed.

Lemma X3_witness :
  exists t0 t1,
    FlightData.start_time scenario_A_flight = Some t0
    /\ FlightData.end_time scenario_A_flight = Some t1
    /\ t0 <= t1
    /\ Forall (fun p => t0 <= GpsPoint.timestamp p <= t1)
              (FlightData.gps_points scenario_A_flight)
    /\ 0 <= FlightData.duration scenario_A_flight <= t1 - t0.
Proof.
  apply (@X3_times_ordered_duration_bounded scenario_A_log scenario_A_flight).
  exact scenario_A_parsed.
Defined.

(** X4. When no sample has timestamp zero, the duration is
    [end_time - start_time]. *)
Theorem X4_duration_is_the_span_without_zero_times (log : DFReader.t)
    (fd : FlightData.t) :
  parse_messages log = Ok fd ->
  Forall (fun p => GpsPoint.timestamp p <> 0) (FlightData.gps_points fd) ->
  exists t0 t1,
    FlightData.start_time fd = Some t0
    /\ FlightData.end_time fd = Some t1
    /\ FlightData.duration fd = t1 - t0.
Proof.
  intros Hok Hnz.
  destruct (parse_ok_inv log Hok) as (Hne & t0 & t1 & top & [Hi0 _] & [Hi1 _] & _ & ->).
  cbn [FlightData.gps_points] in Hnz. rewrite Forall_forall in Hnz.
  exists t0, t1. cbn [FlightData.start_time FlightData.end_time FlightData.duration].
  apply in_map_iff in Hi0 as (p0 & <- & Hp0).
  apply in_map_iff in Hi1 as (p1 & <- & Hp1).
  rewrite !truthy_true by auto. repeat split.
Qed.

Lemma X4_witness :
  exists t0 t1,
    FlightData.start_time passing_flight = Some t0
    /\ FlightData.end_time passing_flight = Some t1
    /\ FlightData.duration passing_flight = t1 - t0.
Proof.
  apply (@X4_duration_is_the_span_without_zero_times passing_log passing_flight).
  - exact passing_parsed.
  - repeat constructor; cbn; lra.
Defined.

(** X5. In every summary [max_altitude] is the altitude of one of the
    samples, and no sample is higher. *)
Theorem X5_max_altitude_is_the_highest_sample (log : DFReader.t)
    (fd : FlightData.t) :
  parse_messages log = Ok fd ->
  Forall (fun p => GpsPoint.alt p <= FlightData.max_altitude fd)
         (FlightData.gps_points fd)
  /\ Exists (fun p => GpsPoint.alt p = FlightData.max_altitude fd)
            (FlightData.gps_points fd).
Proof.
  intros Hok.
  destruct (parse_ok_inv log Hok) as (Hne & t0 & t1 & top & _ & _ & [Hin Hle] & ->).
  cbn [FlightData.gps_points FlightData.max_altitude].
  split.
  - apply Forall_forall. intros p Hp. apply Hle. now apply in_map.
  - apply in_map_iff in Hin as (p & Ep & Hp).
    apply Exists_exists. now exists p.
Qed.

Lemma X5_witness :
  Forall (fun p => GpsPoint.alt p <= FlightData.max_altitude passing_flight)
         (FlightData.gps_points passing_flight)
  /\ Exists (fun p => GpsPoint.alt p = FlightData.max_altitude passing_flight)
            (FlightData.gps_points passing_flight).
Proof.
  apply (@X5_max_altitude_is_the_highest_sample passing_log passing_flight).
  exact passing_parsed.
Defined.

End ParserExtras.

(* ================================================================== *)
(** * Further properties of parser and validator together               *)
(* ================================================================== *)

Section PipelineExtras.

Import LogParser FlightValidator.

Lemma scenario_center_cos : cos (radians (Location.lat scenario_A_center)) <> 0.
Proof. apply Rgt_not_eq, cos_radians_pos. cbn. lra. Qed.

Lemma passing_inside :
  Forall (inside_box (spec_bounds scenario_A_center 100))
         (FlightData.gps_points passing_flight).
Proof.
  assert (-90 < 10 < 90) as Hlat by lra.
  assert (0 <= 100) as Ha by lra.
  pose proof (lng_offset_ge_lat_offset Hlat Ha) as Hoff.
  unfold spec_bounds, scenario_A_center, passing_flight, inside_box.
  cbn [Location.lat Location.lng FlightData.gps_points].
  set (off := 100 / 2 / (111000 * cos (radians 10))) in *.
  repeat constructor;
    cbn [GpsPoint.lat GpsPoint.lng Bounds.min_lat Bounds.max_lat
         Bounds.min_lng Bounds.max_lng]; lra.
Qed.

Lemma passing_validated :
  validated passing_flight scenario_A_center 100 50 60 true = Ok true.
Proof.
  unfold validated. rewrite (@init_ok _ _ _ _ _ _ scenario_center_cos). cbn [bind].
  unfold validate, _validate_duration, _validate_altitude, _validate_geofence.
  cbn [flight_data min_duration max_altitude geofencing_enabled bounds].
  rewrite (proj2 (geofence_loop_spec _ _) passing_inside).
  cbn [FlightData.duration FlightData.max_altitude passing_flight].
  rewrite (@ge_true 61 60), (@le_true 20 50) by lra. reflexivity.
Qed.





Lemma operator_identity_last (log : DFReader.t) :
  operator_identity log = last (map Some (operator_keys log)) None.
Proof.
  induction log as [|m log IH]; [reflexivity|].
  destruct m as [Status Lat Lng Alt ts | Name Value | ty];
    cbn [operator_identity operator_keys]; try exact IH.
  rewrite IH.
  destruct (String.eqb Name "OPERATOR_PUBKEY"); [|now destruct (last _ _)].
  cbn [map]. destruct (operator_keys log) as [|k ks] eqn:Ek; [reflexivity|].
  cbn [map] in *. change (last (Some Value :: Some k :: map Some ks) None)
    with (last (Some k :: map Some ks) None).
  destruct (last (Some k :: map Some ks) None) eqn:El; [reflexivity|].
  exfalso. clear -El. revert k El.
  induction ks as [|k' ks IHk]; intros k El; [discriminate|].
  apply (IHk k'). exact El.
Qed.

(** X7. The operator key of the summary is the value of the last
    [OPERATOR_PUBKEY] parameter message of the recording, and [None] when
    there is none; parameter messages with other names leave it alone. *)
Theorem X7_last_operator_key_wins (log : DFReader.t) (fd : FlightData.t) :
  parse_messages log = Ok fd ->
  FlightData.operator_pubkey fd = last (map Some (operator_keys log)) None.
Proof.
  intros Hok.
  destruct (parse_ok_inv log Hok) as (_ & t0 & t1 & top & _ & _ & _ & ->).
  cbn [FlightData.operator_pubkey]. apply operator_identity_last.
Qed.

Lemma X7_witness :
  FlightData.operator_pubkey passing_flight
  = last (map Some (operator_keys passing_log)) None.
Proof.
  apply (@X7_last_operator_key_wins passing_log passing_flight).
  exact passing_parsed.
Defined.

End PipelineExtras.

(* ================================================================== *)
(** * Further properties of the validator                               *)
(* ================================================================== *)

Section ValidatorExtras.

Import FlightValidator.

(** Under a centre between the poles a larger area gives a larger box. *)
Lemma spec_bounds_mono (center : Location.t) (a a' : R) (p : GpsPoint.t) :
  -90 < Location.lat center < 90 -> a <= a' ->
  inside_box (spec_bounds center a) p -> inside_box (spec_bounds center a') p.
Proof.
  intros Hlat Ha. pose proof (cos_radians_pos Hlat) as Hc.
  unfold inside_box, spec_bounds.
  cbn [Bounds.min_lat Bounds.max_lat Bounds.min_lng Bounds.max_lng].
  set (c := cos (radians (Location.lat center))) in *.
  assert (0 < / (111000 * c)) as Hinv by (apply Rinv_0_lt_compat; nra).
  assert (a / 2 / (111000 * c) <= a' / 2 / (111000 * c)) as Hlng
    by (unfold Rdiv; apply Rmult_le_compat_r; lra).
  lra.
Qed.

Lemma forallb_permutation (A : Type) (f : A -> bool) (l l' : list A) :
  Permutation l l' -> forallb f l = forallb f l'.
Proof.
  induction 1 as [|x l l' _ IH|x y l|l l' l'' _ IH1 _ IH2]; cbn [forallb].
  - reflexivity.
  - now rewrite IH.
  - now destruct (f x), (f y).
  - congruence.
Qed.

(** X8. Relaxing the task never turns a pass into a fail: under a centre
    between the poles, a flight that passes keeps passing when the area
    grows, the altitude ceiling rises and the minimum duration falls. *)
Theorem X8_relaxed_task_keeps_the_pass (fd : FlightData.t) (center : Location.t)
    (a a' ma ma' md md' : R) (g : bool) :
  -90 < Location.lat center < 90 ->
  a <= a' -> ma <= ma' -> md' <= md ->
  validated fd center a ma md g = Ok true ->
  validated fd center a' ma' md' g = Ok true.
Proof.
  intros Hlat Ha Hma Hmd. unfold validated.
  assert (cos (radians (Location.lat center)) <> 0) as Hc
    by (apply Rgt_not_eq, cos_radians_pos, Hlat).
  rewrite !init_ok by exact Hc. cbn [bind].
  unfold validate, _validate_duration, _validate_altitude, _validate_geofence.
  cbn [flight_data min_duration max_altitude geofencing_enabled bounds].
  intros H. injection H as H.
  apply andb_true_iff in H as [H Hgeo]. apply andb_true_iff in H as [Hdur Halt].
  apply ge_spec in Hdur. apply le_spec in Halt.
  rewrite ge_true, le_true by lra. cbn [andb]. f_equal.
  destruct g; [|reflexivity].
  apply geofence_loop_spec. apply geofence_loop_spec in Hgeo.
  rewrite Forall_forall in *. intros p Hp.
  apply (@spec_bounds_mono center a a' p Hlat Ha). now apply Hgeo.
Qed.

Lemma X8_witness :
  validated passing_flight scenario_A_center 200 80 30 true = Ok true.
Proof.
  apply (@X8_relaxed_task_keeps_the_pass passing_flight scenario_A_center
           100 200 50 80 60 30 true); try (cbn; lra).
  exact passing_validated.
Defined.

(** X12. The verdict does not depend on the order of the samples: two
    summaries with the same samples in any order, the same duration and the
    same highest altitude get the same result. *)
Theorem X12_verdict_ignores_sample_order (fd fd' : FlightData.t)
    (center : Location.t) (a ma md : R) (g : bool) :
  Permutation (FlightData.gps_points fd) (FlightData.gps_points fd') ->
  FlightData.duration fd = FlightData.duration fd' ->
  FlightData.max_altitude fd = FlightData.max_altitude fd' ->
  validated fd center a ma md g = validated fd' center a ma md g.
Proof.
  intros Hperm Hd Ha. unfold validated.
  destruct (Req_dec_T (cos (radians (Location.lat center))) 0) as [Hz|Hnz].
  - rewrite !init_zero_division by exact Hz. reflexivity.
  - rewrite !init_ok by exact Hnz. cbn [bind].
    unfold validate, _validate_duration, _validate_altitude, _validate_geofence.
    cbn [flight_data min_duration max_altitude geofencing_enabled bounds].
    rewrite Hd, Ha, !geofence_loop_forallb.
    now rewrite (forallb_permutation _ Hperm).
Qed.

Lemma X12_witness :
  validated passing_flight scenario_A_center 100 50 60 true
  = validated shuffled_flight scenario_A_center 100 50 60 true.
Proof.
  apply (@X12_verdict_ignores_sample_order passing_flight shuffled_flight
           scenario_A_center 100 50 60 true); try reflexivity.
  apply Permutation_sym.
  exact (Permutation_cons_append
           [ GpsPoint.Build (100004500 / 1e7) (199995500 / 1e7) (1000 / 100) 1;
             GpsPoint.Build (99995500 / 1e7) (200004500 / 1e7) (2000 / 100) 30 ]
           (GpsPoint.Build (100000000 / 1e7) (200000000 / 1e7) (1500 / 100) 62)).
Defined.

End ValidatorExtras.

Section SummaryExtras.

Import LogParser FlightValidator.

Lemma parse_messages_from_captured (log : DFReader.t) :
  parse_messages log =
  summarize (Locals (captured log)
                    (map GpsPoint.alt (captured log))
                    (map GpsPoint.timestamp (captured log))
                    (operator_identity log)).
Proof.
  unfold parse_messages. rewrite process_messages_spec. cbn [bind].
  cbn [locals0 gps_points altitudes timestamps operator_pubkey app].
  now destruct (operator_identity log).
Qed.

Lemma captured_filter (log : DFReader.t) :
  captured (filter is_kept log) = captured log.
Proof.
  induction log as [|m log IH]; [reflexivity|].
  destruct m as [Status Lat Lng Alt ts | Name Value | ty];
    cbn [filter is_kept captured].
  - unfold ge. destruct (Rge_dec Status 3) as [Hge|Hlt]; [|exact IH].
    cbn [captured]. destruct (Rge_dec Status 3); [now rewrite IH | contradiction].
  - destruct (String.eqb Name "OPERATOR_PUBKEY"); exact IH.
  - exact IH.
Qed.

Lemma operator_identity_filter (log : DFReader.t) :
  operator_identity (filter is_kept log) = operator_identity log.
Proof.
  induction log as [|m log IH]; [reflexivity|].
  destruct m as [Status Lat Lng Alt ts | Name Value | ty];
    cbn [filter is_kept operator_identity].
  - destruct (ge Status 3); exact IH.
  - destruct (String.eqb Name "OPERATOR_PUBKEY") eqn:E.
    + cbn [operator_identity]. now rewrite IH, E.
    + rewrite IH. now destruct (operator_identity log).
  - exact IH.
Qed.

(** X17. Only position messages with a 3D fix or better and operator-key
    messages count: with every other message taken out of the recording,
    [parse] returns the same summary or raises the same error. *)
Theorem X17_other_messages_change_nothing (log : DFReader.t) :
  parse_messages (filter is_kept log) = parse_messages log.
Proof.
  rewrite !parse_messages_from_captured.
  now rewrite captured_filter, operator_identity_filter.
Qed.

End SummaryExtras.

(* ================================================================== *)
(** * Further properties of process_drone_log                           *)
(* ================================================================== *)

Section StringFacts.

Open Scope string_scope.

Lemma append_assoc (a b c : string) : (a ++ b) ++ c = a ++ (b ++ c).
Proof. induction a as [|x a IH]; cbn; [reflexivity | now rewrite IH]. Qed.

Lemma length_append (a b : string) :
  String.length (a ++ b) = (String.length a + String.length b)%nat.
Proof. induction a as [|x a IH]; cbn; [reflexivity | now rewrite IH]. Qed.

Lemma substring_all (s : string) : substring 0 (String.length s) s = s.
Proof. induction s as [|x s IH]; cbn; [reflexivity | now rewrite IH]. Qed.

Lemma substring_append (a b : string) :
  substring (String.length a) (String.length b) (a ++ b) = b.
Proof. induction a as [|x a IH]; cbn; [apply substring_all | exact IH]. Qed.

Lemma substring_split (s : string) : forall n,
  (n <= String.length s)%nat ->
  s = substring 0 n s ++ substring n (String.length s - n) s.
Proof.
  induction s as [|x s IH]; intros n Hn.
  - destruct n; reflexivity.
  - destruct n as [|n].
    + cbn [substring append]. change (String.length (String x s) - 0)%nat
        with (S (String.length s)). cbn [substring]. now rewrite substring_all.
    + cbn in Hn. cbn [substring append String.length Nat.sub].
      f_equal. apply IH. lia.
Qed.

(** [s.endswith(suffix)] holds exactly when [s] is some string followed by
    [suffix]. *)
Lemma endswith_iff (s suffix : string) :
  endswith s suffix = true <-> exists a, s = a ++ suffix.
Proof.
  unfold endswith. split.
  - intros H. apply andb_true_iff in H as [Hle Heq].
    apply Nat.leb_le in Hle. apply String.eqb_eq in Heq.
    exists (substring 0 (String.length s - String.length suffix) s).
    assert (String.length s - String.length suffix <= String.length s)%nat
      as Hn by lia.
    pose proof (substring_split s Hn) as Hs.
    replace (String.length s - (String.length s - String.length suffix))%nat
      with (String.length suffix) in Hs by lia.
    now rewrite Heq in Hs.
  - intros (a & ->). rewrite length_append.
    apply andb_true_iff. split; [apply Nat.leb_le; lia|].
    replace (String.length a + String.length suffix - String.length suffix)%nat
      with (String.length a) by lia.
    rewrite substring_append. apply String.eqb_refl.
Qed.

Lemma endswith_append (a s suffix : string) :
  endswith s suffix = true -> endswith (a ++ s) suffix = true.
Proof.
  rewrite !endswith_iff. intros (b & ->). exists (a ++ b). now rewrite append_assoc.
Qed.

Lemma substring_prefix (p s : string) :
  substring 0 (String.length p) (p ++ s) = p.
Proof.
  induction p as [|x p IH]; cbn; [now destruct s | now rewrite IH].
Qed.

Lemma startswith_append (p s : string) : Str.startswith (p ++ s) p = true.
Proof.
  unfold Str.startswith. apply String.prefix_correct, substring_prefix.
Qed.

Lemma in_append (c : ascii) (a b : string) :
  In c (list_ascii_of_string (a ++ b)) <->
  In c (list_ascii_of_string a) \/ In c (list_ascii_of_string b).
Proof.
  induction a as [|x a IH]; cbn; [tauto | rewrite IH; tauto].
Qed.

(** A string without the separator is one piece. *)
Lemma split_one_piece (sep : ascii) (s : string) :
  ~ In sep (list_ascii_of_string s) -> Str.split sep s = [s].
Proof.
  induction s as [|x s IH]; intros Hn; [reflexivity|].
  cbn [Str.split]. cbn in Hn.
  destruct (Ascii.eqb_spec x sep) as [->|Hx]; [tauto|].
  rewrite IH by tauto. reflexivity.
Qed.

(** The first piece ends at the first separator. *)
Lemma split_at_first (sep : ascii) (d rest : string) :
  ~ In sep (list_ascii_of_string d) ->
  Str.split sep (d ++ String sep rest) = d :: Str.split sep rest.
Proof.
  induction d as [|x d IH]; intros Hn.
  - cbn [append Str.split]. now rewrite Ascii.eqb_refl.
  - cbn [append Str.split]. cbn in Hn.
    destruct (Ascii.eqb_spec x sep) as [->|Hx]; [tauto|].
    rewrite IH by tauto. reflexivity.
Qed.

Lemma split_nonempty (sep : ascii) (s : string) : Str.split sep s <> [].
Proof.
  destruct s as [|x s]; cbn [Str.split]; [discriminate|].
  destruct (Ascii.eqb x sep); [discriminate|].
  destruct (Str.split sep s); discriminate.
Qed.

(** An occurrence of [.bin] that begins in [s] and ends in a following
    [.bin] lies in [s]. *)
Lemma prefix_bin_append (s : string) :
  s <> "" -> String.prefix ".bin" (s ++ ".bin") = true ->
  String.prefix ".bin" s = true.
Proof.
  intros Hne.
  destruct s as [|c1 [|c2 [|c3 [|c4 s]]]]; [congruence| | | |];
    cbn [String.append String.prefix];
    repeat match goal with
           | |- context [ascii_dec ?a ?b] =>
               destruct (ascii_dec a b) as [?|?]; try discriminate;
               cbn [String.append String.prefix]
           end; try congruence.
  intros _. now destruct s.
Qed.

(** [replace] takes a final [.bin] off a string with no other one. *)
Lemma replace_final_bin (s : string) :
  occurs ".bin" s = false -> Str.replace (s ++ ".bin") ".bin" "" = s.
Proof.
  unfold Str.replace.
  induction s as [|c s IH]; intros Hocc; [reflexivity|].
  cbn [occurs] in Hocc. apply orb_false_iff in Hocc as [Hpre Hrest].
  assert (occurs ".bin" s = false) as Hs.
  { destruct s; [reflexivity | exact Hrest]. }
  change (String c s ++ ".bin") with (String c (s ++ ".bin")).
  cbn [Str.replace_from].
  destruct (String.prefix ".bin" (String c (s ++ ".bin"))) eqn:E.
  - change (String c (s ++ ".bin")) with (String c s ++ ".bin") in E.
    apply prefix_bin_append in E; [congruence | discriminate].
  - f_equal. now apply IH.
Qed.

End StringFacts.

Section RouteExtras.

Import ProcessDroneLog.

Open Scope string_scope.

(** X13. An upload named [logs/<id>.bin], where [<id>] has no slash and no
    [.bin] in it, is processed for the task [<id>]. *)
Theorem X13_upload_is_routed_to_its_task (id : string) :
  ~ In "/"%char (list_ascii_of_string id) ->
  occurs ".bin" id = false ->
  route ("logs/" ++ id ++ ".bin") = ForTask id.
Proof.
  intros Hslash Hocc. unfold route.
  assert (endswith ("logs/" ++ id ++ ".bin") ".bin" = true) as ->
    by (apply endswith_iff; exists ("logs/" ++ id); now rewrite append_assoc).
  rewrite startswith_append.
  cbn [negb orb].
  change ("logs/" ++ id ++ ".bin") with ("logs" ++ String "/" (id ++ ".bin")).
  rewrite split_at_first by (cbn; intuition discriminate).
  rewrite split_one_piece.
  - cbn [nth_error]. now rewrite replace_final_bin.
  - rewrite in_append. cbn. intuition discriminate.
Qed.

Lemma X13_witness : route ("logs/" ++ "task-42" ++ ".bin") = ForTask "task-42".
Proof.
  apply (X13_upload_is_routed_to_its_task "task-42").
  - cbn. intuition discriminate.
  - reflexivity.
Defined.

(** X14. For an upload one directory deeper, [logs/<dir>/<file>] with
    [<file>] ending in [.bin], the task id is taken from [<dir>] and the
    file name plays no part. *)
Theorem X14_nested_upload_is_routed_by_directory (dir file : string) :
  ~ In "/"%char (list_ascii_of_string dir) ->
  endswith file ".bin" = true ->
  route ("logs/" ++ dir ++ "/" ++ file) = ForTask (Str.replace dir ".bin" "").
Proof.
  intros Hslash Hbin. unfold route.
  assert (endswith ("logs/" ++ dir ++ "/" ++ file) ".bin" = true) as ->.
  { apply endswith_append, endswith_append.
    now apply (endswith_append "/"). }
  rewrite startswith_append.
  cbn [negb orb].
  change ("logs/" ++ dir ++ "/" ++ file)
    with ("logs" ++ String "/" (dir ++ String "/" file)).
  rewrite split_at_first by (cbn; intuition discriminate).
  rewrite split_at_first by exact Hslash.
  reflexivity.
Qed.

Lemma X14_witness :
  route ("logs/" ++ "task-42" ++ "/" ++ "flight-7.bin")
  = ForTask (Str.replace "task-42" ".bin" "").
Proof.
  apply (X14_nested_upload_is_routed_by_directory "task-42" "flight-7.bin").
  - cbn. intuition discriminate.
  - reflexivity.
Defined.

(** X15. The subscript [[1]] never raises [IndexError]: a path is ignored
    unless it begins with [logs/] and ends with [.bin], and a path that
    begins with [logs/] has a second piece. *)
Theorem X15_route_never_raises (file_path : string) :
  (route file_path = Ignored
   /\ (Str.startswith file_path "logs/" = false \/ endswith file_path ".bin" = false))
  \/ (exists task_id, route file_path = ForTask task_id
      /\ Str.startswith file_path "logs/" = true
      /\ endswith file_path ".bin" = true).
Proof.
  unfold route.
  destruct (Str.startswith file_path "logs/") eqn:Es; cbn [negb orb]; [|left; tauto].
  destruct (endswith file_path ".bin") eqn:Ee; cbn [negb]; [|left; tauto].
  right. unfold Str.startswith in Es.
  apply String.prefix_correct in Es.
  destruct file_path as [|c1 [|c2 [|c3 [|c4 [|c5 rest]]]]]; try discriminate.
  cbn [String.length substring] in Es. injection Es as -> -> -> -> -> _.
  change (String "l" (String "o" (String "g" (String "s" (String "/" rest)))))
    with ("logs" ++ String "/" rest).
  rewrite split_at_first by (cbn; intuition discriminate).
  destruct (Str.split "/" rest) as [|piece pieces] eqn:Ep;
    [now apply split_nonempty in Ep|].
  cbn [nth_error]. eexists. repeat split.
Qed.

End RouteExtras.

Section DownloadExtras.

Import ProcessDroneLog.

Open Scope string_scope.

Lemma dot_is_no_random_character :
  ~ In "."%char (list_ascii_of_string Tempfile.characters).
Proof. cbn. intuition discriminate. Qed.

(** The name of a temporary file does not end in [.bin]: its last eight
    characters are letters, digits and underscores. *)
Lemma temporary_name_is_no_bin (dir rand : string) :
  Tempfile.is_random_part rand ->
  endswith (Tempfile.name dir rand) ".bin" = false.
Proof.
  intros [Hlen Hchars].
  destruct rand as [|c1 [|c2 [|c3 [|c4 [|c5 [|c6 [|c7 [|c8 [|c9 r]]]]]]]]];
    try discriminate Hlen.
  assert (c5 <> "."%char) as Hc5.
  { intros ->. apply dot_is_no_random_character, Hchars. cbn. tauto. }
  assert (exists y, Tempfile.name dir
                      (String c1 (String c2 (String c3 (String c4 (String c5
                        (String c6 (String c7 (String c8 ""))))))))
                    = y ++ String c5 (String c6 (String c7 (String c8 ""))))
    as [y ->].
  { unfold Tempfile.name, Tempfile.join.
    destruct (String.eqb dir "" || endswith dir "/").
    - exists (dir ++ String "t" (String "m" (String "p"
                (String c1 (String c2 (String c3 (String c4 ""))))))).
      now rewrite append_assoc.
    - exists (dir ++ "/" ++ String "t" (String "m" (String "p"
                (String c1 (String c2 (String c3 (String c4 ""))))))).
      now rewrite !append_assoc. }
  unfold endswith. rewrite length_append.
  cbn [String.length].
  replace (String.length y + 4 - 4)%nat with (String.length y) by lia.
  pose proof (substring_append y
                (String c5 (String c6 (String c7 (String c8 ""))))) as Hsub.
  cbn [String.length] in Hsub. rewrite Hsub.
  cbn [String.eqb].
  destruct (Ascii.eqb_spec c5 "."%char) as [E|_]; [contradiction|].
  now rewrite andb_false_r.
Qed.

(** X16. The local file that [process_drone_log] downloads a log to is a
    temporary file without a suffix, and [LogParser] refuses it for its
    name, whatever it holds: [ValueError] for the format when the file is
    there, [FileNotFoundError] when it is not.  No upload reaches
    [parse]. *)
Theorem X16_downloaded_log_is_refused_for_its_name (fs : LogParser.filesystem)
    (dir rand : string) :
  Tempfile.is_random_part rand ->
  parse_download fs dir rand =
  match fs (Tempfile.name dir rand) with
  | None =>
      Raise (FileNotFoundError ("Log file not found at " ++ Tempfile.name dir rand))
  | Some _ =>
      Raise (ValueError ("Unsupported log format. Expected .bin file, got "
                         ++ Tempfile.name dir rand))
  end.
Proof.
  intros Hrand. unfold parse_download, LogParser.run, LogParser.__init__,
    LogParser.exists_.
  destruct (fs (Tempfile.name dir rand)); cbn [negb bind]; [|reflexivity].
  now rewrite (temporary_name_is_no_bin dir Hrand).
Qed.

Lemma X16_witness :
  parse_download download_fs "/tmp" "k3_9xw0a"
  = Raise (ValueError
             "Unsupported log format. Expected .bin file, got /tmp/tmpk3_9xw0a").
Proof.
  apply (@X16_downloaded_log_is_refused_for_its_name download_fs "/tmp" "k3_9xw0a").
  split; [reflexivity|].
  cbn. intuition (subst; tauto).
Defined.

End DownloadExtras.
